(** * Appointment and payment status workflow of the healthcare front end

    A shallow embedding of the status-mutation, local-update, filtering and
    dashboard-refresh logic of the React components [AppointmentsList],
    [AdminDashboard], [PaymentStatusDebug] and [Reports], and the
    properties of that logic.

    Conventions of the embedding:
    - JavaScript values are the primitives of [JS.value]; an object is a
      finite map from property names to values, an array of objects a list;
    - a rejected promise or a thrown [TypeError] is an exception of the monad
      [Eff.M], which threads the log of requests, the toasts, the console and
      the component state;
    - the clock and the transport (the backend) are inputs. *)

From Stdlib Require Import ZArith List String Ascii Bool Lia.
From stdpp Require Import base option list strings gmap pretty.
Import ListNotations.

Local Open Scope string_scope.
Local Open Scope list_scope.
Local Open Scope Z_scope.

(* ===================================================================== *)
(** ** JavaScript values, objects and the string operations used         *)
(* ===================================================================== *)

Module JS.

(** Primitive values. Numbers are the integers the code handles (ids,
    time values, counts); [VNaN] is kept apart because the code can produce
    it ([undefined + undefined]) and because [NaN !== NaN]. *)
Inductive value :=
| VUndefined
| VNull
| VBool (b : bool)
| VNum (n : Z)
| VNaN
| VStr (s : string).

#[global] Instance value_eq_dec : EqDecision value.
Proof. solve_decision. Defined.

(** [a === b] *)
Definition strict_eq (a b : value) : bool :=
  match a, b with
  | VNaN, _ | _, VNaN => false
  | _, _ => bool_decide (a = b)
  end.

(** ToBoolean *)
Definition truthy (v : value) : bool :=
  match v with
  | VUndefined | VNull | VNaN => false
  | VBool b => b
  | VNum n => negb (n =? 0)
  | VStr s => negb (bool_decide (s = ""))
  end.

(** [a || b] on values *)
Definition or_else (a b : value) : value := if truthy a then a else b.

(** ToString, as applied by a template literal [`${v}`]. *)
Definition to_string (v : value) : string :=
  match v with
  | VUndefined => "undefined"
  | VNull => "null"
  | VBool true => "true"
  | VBool false => "false"
  | VNum n => pretty n
  | VNaN => "NaN"
  | VStr s => s
  end.

(** An object literal or a JSON object: own properties only. *)
Abbreviation obj := (gmap string value).

(** [o.k] / [o[k]] for an own property; a missing property reads
    [undefined]. *)
Definition get (o : obj) (k : string) : value := default VUndefined (o !! k).

(** [{ ...o, [k]: v }] *)
Definition spread_set (o : obj) (k : string) (v : value) : obj := <[k := v]> o.

(** Case conversion of one character; the model converts the letters of
    ASCII and leaves every other byte as it is. *)
Definition lower_ascii (c : ascii) : ascii :=
  let n := nat_of_ascii c in
  if (65 <=? n)%nat && (n <=? 90)%nat then ascii_of_nat (n + 32) else c.

Definition upper_ascii (c : ascii) : ascii :=
  let n := nat_of_ascii c in
  if (97 <=? n)%nat && (n <=? 122)%nat then ascii_of_nat (n - 32) else c.

Fixpoint toLowerCase (s : string) : string :=
  match s with
  | EmptyString => EmptyString
  | String c r => String (lower_ascii c) (toLowerCase r)
  end.

Fixpoint toUpperCase (s : string) : string :=
  match s with
  | EmptyString => EmptyString
  | String c r => String (upper_ascii c) (toUpperCase r)
  end.

(** [s.startsWith(p)] *)
Fixpoint startsWith (s p : string) {struct p} : bool :=
  match p, s with
  | EmptyString, _ => true
  | String _ _, EmptyString => false
  | String a p', String b s' => bool_decide (a = b) && startsWith s' p'
  end.

(** [s.includes(t)] *)
Fixpoint includes (s t : string) : bool :=
  startsWith s t ||
  match s with
  | EmptyString => false
  | String _ s' => includes s' t
  end.

(** [s.charAt(0)] *)
Definition charAt0 (s : string) : string :=
  match s with
  | EmptyString => EmptyString
  | String c _ => String c EmptyString
  end.

(** [s.slice(1)] *)
Definition slice1 (s : string) : string :=
  match s with
  | EmptyString => EmptyString
  | String _ r => r
  end.

(** [arr.slice(0, n)] *)
Definition slice0 {A} (n : nat) (l : list A) : list A := firstn n l.

End JS.

(* ===================================================================== *)
(** ** The part of [Date] the view-model uses                            *)
(* ===================================================================== *)

(** Time values are milliseconds since the epoch; [None] is the time value
    [NaN] of an invalid date. Local time is modelled with offset zero and no
    daylight saving, so that local calendar days are the UTC ones. *)
Module JSDate.

Definition msPerDay : Z := 86400000.

Definition time := option Z.

(** TimeClip *)
Definition TimeClip (t : Z) : time :=
  if Z.abs t <=? 8640000000000000 then Some t else None.

Definition Day (t : Z) : Z := t / msPerDay.
Definition TimeWithinDay (t : Z) : Z := t mod msPerDay.

(** Day number of a civil date (month 1..12) of the proleptic Gregorian
    calendar, and back. *)
Definition days_from_civil (y m d : Z) : Z :=
  let y' := if m <=? 2 then y - 1 else y in
  let era := y' / 400 in
  let yoe := y' - era * 400 in
  let mp := if 2 <? m then m - 3 else m + 9 in
  let doy := (153 * mp + 2) / 5 + d - 1 in
  let doe := yoe * 365 + yoe / 4 - yoe / 100 + doy in
  era * 146097 + doe - 719468.

Definition civil_from_days (z : Z) : Z * Z * Z :=
  let z' := z + 719468 in
  let era := z' / 146097 in
  let doe := z' - era * 146097 in
  let yoe := (doe - doe / 1460 + doe / 36524 - doe / 146096) / 365 in
  let doy := doe - (365 * yoe + yoe / 4 - yoe / 100) in
  let mp := (5 * doy + 2) / 153 in
  let d := doy - (153 * mp + 2) / 5 + 1 in
  let m := if mp <? 10 then mp + 3 else mp - 9 in
  (yoe + era * 400 + (if m <=? 2 then 1 else 0), m, d).

Definition getFullYear (t : Z) : Z := (civil_from_days (Day t)).1.1.
(** [getMonth()] is zero-based. *)
Definition getMonth (t : Z) : Z := (civil_from_days (Day t)).1.2 - 1.
Definition getDate (t : Z) : Z := (civil_from_days (Day t)).2.
Definition getDay (t : Z) : Z := (Day t + 4) mod 7.

(** MakeDay: the month may lie outside 0..11 and the date outside the
    month; both carry over. *)
Definition MakeDay (year month date : Z) : Z :=
  days_from_civil (year + month / 12) (month mod 12 + 1) 1 + date - 1.

Definition MakeDate (day tm : Z) : Z := day * msPerDay + tm.

(** [d.setHours(0, 0, 0, 0)] *)
Definition setHours0 (t : Z) : Z := MakeDate (Day t) 0.

(** [d.setDate(dt)] *)
Definition setDate (t dt : Z) : Z :=
  MakeDate (MakeDay (getFullYear t) (getMonth t) dt) (TimeWithinDay t).

(** [d.setMonth(m)] *)
Definition setMonth (t m : Z) : Z :=
  MakeDate (MakeDay (getFullYear t) m (getDate t)) (TimeWithinDay t).

(** What [toDateString()] prints: week day, month, day of the month and
    year of a valid date (as in [Sun Nov 01 2026]), or [Invalid Date]. *)
Inductive date_string :=
| InvalidDate
| DateString (weekday month date year : Z).

#[global] Instance date_string_eq_dec : EqDecision date_string.
Proof. solve_decision. Defined.

Definition toDateString (t : time) : date_string :=
  match t with
  | None => InvalidDate
  | Some t => DateString (getDay t) (getMonth t) (getDate t) (getFullYear t)
  end.

(** [a >= b], [a <= b] and [a < b] on dates compare the time values, and
    are false when one of them is [NaN]. *)
Definition cmp (op : Z -> Z -> bool) (a b : time) : bool :=
  match a, b with
  | Some x, Some y => op x y
  | _, _ => false
  end.
Definition ge : time -> time -> bool := cmp Z.geb.
Definition le : time -> time -> bool := cmp Z.leb.
Definition lt : time -> time -> bool := cmp Z.ltb.

(** [new Date(v)] for a primitive [v]; [parse] is [Date.parse], whose
    accepted formats are in part left to the implementation. *)
Definition construct (parse : string -> time) (v : JS.value) : time :=
  match v with
  | JS.VStr s => parse s
  | JS.VNum n => TimeClip n
  | JS.VNull => Some 0
  | JS.VBool b => Some (if b then 1 else 0)
  | JS.VUndefined | JS.VNaN => None
  end.

(** The date-time format of ECMAScript that the backend's ISO timestamps
    follow: [YYYY-MM-DD], optionally followed by [THH:mm], [:ss], [.sss]
    and [Z]. *)
Definition digit (c : ascii) : option Z :=
  let n := nat_of_ascii c in
  if (48 <=? n)%nat && (n <=? 57)%nat then Some (Z.of_nat n - 48) else None.

Fixpoint digits (n : nat) (acc : Z) (s : string) : option (Z * string) :=
  match n with
  | O => Some (acc, s)
  | S n' =>
      match s with
      | String c r => d ← digit c; digits n' (10 * acc + d) r
      | EmptyString => None
      end
  end.

Definition expect (c : ascii) (s : string) : option string :=
  match s with
  | String c' r => if bool_decide (c = c') then Some r else None
  | EmptyString => None
  end.

(** An optional part introduced by the character [c]. *)
Definition opt_part (c : ascii) (k : string -> option (Z * string))
    (s : string) : option (Z * string) :=
  match expect c s with
  | Some r => k r
  | None => Some (0, s)
  end.

Definition DaysInMonth (y m : Z) : Z :=
  days_from_civil (y + m / 12) (m mod 12 + 1) 1 - days_from_civil y m 1.

Definition parse_time_part (s : string) : option (Z * string) :=
  '(h, s) ← digits 2 0 s;
  s ← expect ":" s;
  '(mi, s) ← digits 2 0 s;
  '(sec, s) ← opt_part ":" (digits 2 0) s;
  '(ms, s) ← opt_part "." (digits 3 0) s;
  '(_, s) ← opt_part "Z" (λ r, Some (0, r)) s;
  if (h <=? 23) && (mi <=? 59) && (sec <=? 59)
  then Some (((h * 60 + mi) * 60 + sec) * 1000 + ms, s) else None.

Definition parse (s : string) : time :=
  '(y, s) ← digits 4 0 s;
  s ← expect "-" s;
  '(m, s) ← digits 2 0 s;
  s ← expect "-" s;
  '(d, s) ← digits 2 0 s;
  '(tm, s) ← opt_part "T" parse_time_part s;
  if (1 <=? m) && (m <=? 12) && (1 <=? d) && (d <=? DaysInMonth y m)
     && bool_decide (s = "")
  then Some (MakeDate (days_from_civil y m d) tm) else None.

End JSDate.

(* ===================================================================== *)
(** ** Effects: requests, toasts, console, component state               *)
(* ===================================================================== *)

Module Eff.
Import JS.

Inductive method := GET | PUT | PATCH.

#[global] Instance method_eq_dec : EqDecision method.
Proof. solve_decision. Defined.

(** One call of [axios]: [axios.get(url)], [axios.put(url, body, {params})]
    or [axios.patch(url, body, {params})]. A [null] or missing body is
    [None], a missing [params] the empty object. *)
Record request := Request {
  req_method : method;
  req_url : string;
  req_body : option obj;
  req_params : obj
}.

#[global] Instance request_eq_dec : EqDecision request.
Proof. solve_decision. Defined.

(** [response.data]: a JSON object or an array of JSON objects. *)
Inductive payload :=
| PObj (o : obj)
| PArr (l : list obj).

#[global] Instance payload_eq_dec : EqDecision payload.
Proof. solve_decision. Defined.

(** What a rejected [axios] promise carries, as far as the code looks at
    it: [error.response?.data?.detail]. *)
Inductive response :=
| Resolved (data : payload)
| Rejected (detail : value).

Definition rejected (r : response) : Prop := ∃ detail, r = Rejected detail.
Definition resolved (r : response) : Prop := ∃ data, r = Resolved data.

(** The backend, seen from the component: the response to a request may
    depend on the requests sent before it. *)
Definition transport := list request -> request -> response.

Inductive exn :=
| AxiosError (detail : value)
| TypeError.

Inductive toast :=
| ToastSuccess (msg : string)
| ToastError (msg : string)
| ToastInfo (msg : string).

#[global] Instance toast_eq_dec : EqDecision toast.
Proof. solve_decision. Defined.

(** Everything a handler can read or change. [sent], [toasts] and
    [console] are in chronological order. *)
Record world (S : Type) := World {
  backend : transport;
  sent : list request;
  toasts : list toast;
  console : list string;
  component : S
}.
Arguments World {S}.
Arguments backend {S}.
Arguments sent {S}.
Arguments toasts {S}.
Arguments console {S}.
Arguments component {S}.

Inductive outcome (A : Type) :=
| Done (a : A)
| Throw (e : exn).
Arguments Done {A}.
Arguments Throw {A}.

Definition M (S A : Type) : Type := world S -> outcome A * world S.

Definition ret {S A} (a : A) : M S A := fun w => (Done a, w).

Definition bind {S A B} (m : M S A) (k : A -> M S B) : M S B :=
  fun w =>
    match m w with
    | (Done a, w') => k a w'
    | (Throw e, w') => (Throw e, w')
    end.

Definition throw {S A} (e : exn) : M S A := fun w => (Throw e, w).

(** [try { body } catch (e) { handler(e) }] *)
Definition try_catch {S A} (body : M S A) (handler : exn -> M S A) : M S A :=
  fun w =>
    match body w with
    | (Done a, w') => (Done a, w')
    | (Throw e, w') => handler e w'
    end.

(** [try { body } finally { cleanup }] *)
Definition finally {S A} (body : M S A) (cleanup : M S unit) : M S A :=
  fun w =>
    match body w with
    | (r, w') =>
        match cleanup w' with
        | (Done _, w'') => (r, w'')
        | (Throw e, w'') => (Throw e, w'')
        end
    end.

(** A call of an async function whose promise is dropped: its effects
    happen, its rejection reaches nobody. *)
Definition spawn {S A} (m : M S A) : M S unit :=
  fun w => (Done tt, (m w).2).

Definition gets {S A} (f : S -> A) : M S A := fun w => (Done (f (component w)), w).

Definition modify {S} (f : S -> S) : M S unit :=
  fun w => (Done tt, World (backend w) (sent w) (toasts w) (console w) (f (component w))).

Definition emit_toast {S} (t : toast) : M S unit :=
  fun w => (Done tt, World (backend w) (sent w) (toasts w ++ [t]) (console w) (component w)).

Definition toast_success {S} (msg : string) : M S unit := emit_toast (ToastSuccess msg).
Definition toast_error {S} (msg : string) : M S unit := emit_toast (ToastError msg).

(** [console.log] and [console.error]; the first argument is recorded. *)
Definition console_log {S} (msg : string) : M S unit :=
  fun w => (Done tt, World (backend w) (sent w) (toasts w) (console w ++ [msg]) (component w)).

(** Sending a request: it is logged, and the backend answers. *)
Definition send {S} (r : request) : M S response :=
  fun w => (Done (backend w (sent w) r),
            World (backend w) (sent w ++ [r]) (toasts w) (console w) (component w)).

Definition settle {S} (r : response) : M S payload :=
  match r with
  | Resolved d => ret d
  | Rejected detail => throw (AxiosError detail)
  end.

(** [await axios.get(...)], [await axios.put(...)], [await axios.patch(...)] *)
Definition axios {S} (r : request) : M S payload := bind (send r) settle.

Definition axios_get (url : string) : request := Request GET url None ∅.
Definition axios_put (url : string) (body : option obj) (params : obj) : request :=
  Request PUT url body params.
Definition axios_patch (url : string) (body : option obj) (params : obj) : request :=
  Request PATCH url body params.

Fixpoint send_all {S} (rs : list request) : M S (list response) :=
  match rs with
  | [] => ret []
  | r :: rs' => bind (send r) (fun x => bind (send_all rs') (fun xs => ret (x :: xs)))
  end.

Fixpoint settle_all {S} (xs : list response) : M S (list payload) :=
  match xs with
  | [] => ret []
  | x :: xs' => bind (settle x) (fun d => bind (settle_all xs') (fun ds => ret (d :: ds)))
  end.

(** [await Promise.all([axios.get(..), ..])]: every request is sent before
    any response is looked at; one rejection rejects the whole (with the
    rejection of the first rejected request of the list). *)
Definition promise_all {S} (rs : list request) : M S (list payload) :=
  bind (send_all rs) settle_all.

(** [x.map], [x.filter], [x.find] or [x.slice] on what is not an array is
    a [TypeError]. *)
Definition array_of (p : payload) : option (list obj) :=
  match p with
  | PArr l => Some l
  | PObj _ => None
  end.

Definition as_array {S} (p : payload) : M S (list obj) :=
  match array_of p with
  | Some l => ret l
  | None => throw TypeError
  end.

Definition initial {S} (b : transport) (s : S) : world S := World b [] [] [] s.

End Eff.

(** The notations [x ← m; k] and [m;; k] for [Eff.bind]. *)
#[global] Instance eff_ret {S} : MRet (Eff.M S) := fun A => @Eff.ret S A.
#[global] Instance eff_bind {S} : MBind (Eff.M S) := fun A B k m => Eff.bind m k.

(* ===================================================================== *)
(** ** The local update shared by the three components                   *)
(* ===================================================================== *)

(** [appointments.map(apt => apt.id === appointmentId
                             ? { ...apt, payment_status: value } : apt)].
    The source writes this expression three times, each time with the
    field [payment_status]; the field is a parameter here and every use
    below passes ["payment_status"]. *)
Definition applyLocalStatus (appointments : list JS.obj)
    (appointmentId : JS.value) (field : string) (value : JS.value) : list JS.obj :=
  map (fun apt =>
         if JS.strict_eq (JS.get apt "id") appointmentId
         then JS.spread_set apt field value
         else apt)
      appointments.

(** Looking a key up in an object literal: own properties first, then the
    properties every object inherits from [Object.prototype] (functions,
    and the prototype itself for [__proto__]: all truthy). *)
Inductive looked_up (A : Type) :=
| Own (a : A)
| Inherited (name : string)
| Absent.
Arguments Own {A}.
Arguments Inherited {A}.
Arguments Absent {A}.

Definition Object_prototype_names : list string :=
  ["constructor"; "__proto__"; "hasOwnProperty"; "isPrototypeOf";
   "propertyIsEnumerable"; "toLocaleString"; "toString"; "valueOf";
   "__defineGetter__"; "__defineSetter__"; "__lookupGetter__";
   "__lookupSetter__"].

Definition lookup_literal {A} (own : list (string * A)) (key : JS.value) : looked_up A :=
  let k := JS.to_string key in
  match list_find (fun kv => kv.1 = k) own with
  | Some (_, (_, a)) => Own a
  | None => if bool_decide (k ∈ Object_prototype_names) then Inherited k else Absent
  end.

(** [v?.charAt(0).toUpperCase() + v?.slice(1)]: [NaN] when [v] is
    [undefined] or [null] (the sum of two [undefined]), the capitalised
    string when [v] is a string, a [TypeError] otherwise. *)
Definition capitalised (v : JS.value) : option JS.value :=
  match v with
  | JS.VUndefined | JS.VNull => Some JS.VNaN
  | JS.VStr s => Some (JS.VStr (JS.toUpperCase (JS.charAt0 s) +:+ JS.slice1 s))
  | _ => None
  end.

(** The class attribute of a badge: a class string or, for an inherited
    key, the printed form of the inherited function. *)
Inductive class_name :=
| Class (c : string)
| ClassOfInherited (name : string).

#[global] Instance class_name_eq_dec : EqDecision class_name.
Proof. solve_decision. Defined.

(* ===================================================================== *)
(** ** AppointmentsList                                                  *)
(* ===================================================================== *)

Module AppointmentsList.
Import JS Eff.

Record state := State {
  appointments : payload;
  doctors : payload;
  patients : payload;
  loading : bool;
  searchTerm : string;
  statusFilter : string;
  dateFilter : string
}.

(** The [useState] initial values. *)
Definition initial_state : state := State (PArr []) (PArr []) (PArr []) true "" "all" "all".

Definition setAppointments (p : payload) : M state unit :=
  modify (fun s => State p (doctors s) (patients s) (loading s)
                         (searchTerm s) (statusFilter s) (dateFilter s)).
Definition setDoctors (p : payload) : M state unit :=
  modify (fun s => State (appointments s) p (patients s) (loading s)
                         (searchTerm s) (statusFilter s) (dateFilter s)).
Definition setPatients (p : payload) : M state unit :=
  modify (fun s => State (appointments s) (doctors s) p (loading s)
                         (searchTerm s) (statusFilter s) (dateFilter s)).
Definition setLoading (b : bool) : M state unit :=
  modify (fun s => State (appointments s) (doctors s) (patients s) b
                         (searchTerm s) (statusFilter s) (dateFilter s)).

Definition fetchAppointments : M state unit :=
  finally
    (try_catch
       (data ← axios (axios_get "/appointments");
        setAppointments data)
       (fun error => toast_error "Failed to load appointments"))
    (setLoading false).

Definition fetchDoctors : M state unit :=
  try_catch
    (data ← axios (axios_get "/users/doctors");
     setDoctors data)
    (fun error => console_log "Failed to load doctors").

Definition fetchPatients : M state unit :=
  try_catch
    (data ← axios (axios_get "/users/patients");
     setPatients data)
    (fun error => console_log "Failed to load patients").

(** The mount effect: the three fetches are started one after the other,
    none of them awaited. *)
Definition mount (role : string) : M state unit :=
  spawn fetchAppointments;;
  if bool_decide (role = "admin")
  then spawn fetchDoctors;; spawn fetchPatients
  else mret tt.

Definition updateAppointmentStatus (appointmentId status : value) : M state unit :=
  try_catch
    (axios (axios_put ("/appointments/" +:+ to_string appointmentId) None
                      {["status" := status]});;
     toast_success ("Appointment " +:+ to_string status +:+ " successfully");;
     spawn fetchAppointments)
    (fun error => toast_error "Failed to update appointment status").

(** [appointments] is the value the handler closed over, read when the
    handler starts. *)
Definition updatePaymentStatus (appointmentId paymentStatus : value) : M state unit :=
  appointments ← gets appointments;
  try_catch
    (axios (axios_patch ("/appointments/" +:+ to_string appointmentId +:+ "/payment-status")
                        (Some ∅) {["payment_status" := paymentStatus]});;
     toast_success ("Payment status updated to " +:+ to_string paymentStatus);;
     spawn fetchAppointments)
    (fun error =>
       try_catch
         (axios (axios_patch ("/appointments/" +:+ to_string appointmentId)
                             (Some {["payment_status" := paymentStatus]}) ∅);;
          toast_success ("Payment status updated to " +:+ to_string paymentStatus);;
          spawn fetchAppointments)
         (fun fallbackError =>
            console_log "Payment status update failed:";;
            arr ← as_array appointments;
            setAppointments
              (PArr (applyLocalStatus arr appointmentId "payment_status" paymentStatus));;
            toast_success ("Payment status updated to " +:+ to_string paymentStatus
                           +:+ " (demo mode)"))).

(** *** The view-model: what a render computes from the state.
    [None] is a [TypeError] thrown while rendering. *)
Section View.
Variable Date_parse : string -> JSDate.time.
(** The time value of [new Date()] at the render. *)
Variable now : Z.
Variable s : state.

Definition getUserName (userId : value) (type : string) : option value :=
  userList ← array_of (if bool_decide (type = "doctor") then doctors s else patients s);
  match list_find (fun u => strict_eq (get u "id") userId = true) userList with
  | Some (_, foundUser) => Some (get foundUser "full_name")
  | None => Some (VStr (type +:+ " ID: " +:+ to_string userId))
  end.

(** [v.toLowerCase()] *)
Definition lowered (v : value) : option string :=
  match v with
  | VStr x => Some (toLowerCase x)
  | _ => None
  end.

Definition matchesSearch (appointment : obj) : option bool :=
  let term := toLowerCase (searchTerm s) in
  d ← getUserName (get appointment "doctor_id") "doctor" ≫= lowered;
  if includes d term then Some true else
  p ← getUserName (get appointment "patient_id") "patient" ≫= lowered;
  if includes p term then Some true else
  match get appointment "notes" with
  | VUndefined | VNull => Some false
  | notes => n ← lowered notes; Some (includes n term)
  end.

Definition matchesStatus (appointment : obj) : bool :=
  bool_decide (statusFilter s = "all")
  || strict_eq (get appointment "status") (VStr (statusFilter s)).

Definition matchesDate (appointment : obj) : bool :=
  if bool_decide (dateFilter s = "all") then true else
  let appointmentDate := JSDate.construct Date_parse (get appointment "appointment_date") in
  let today := JSDate.setHours0 now in
  if bool_decide (dateFilter s = "today") then
    bool_decide (JSDate.toDateString appointmentDate = JSDate.toDateString (Some today))
  else if bool_decide (dateFilter s = "week") then
    let weekFromNow := JSDate.setDate today (JSDate.getDate today + 7) in
    JSDate.ge appointmentDate (Some today) && JSDate.le appointmentDate (Some weekFromNow)
  else if bool_decide (dateFilter s = "month") then
    let monthFromNow := JSDate.setMonth today (JSDate.getMonth today + 1) in
    JSDate.ge appointmentDate (Some today) && JSDate.le appointmentDate (Some monthFromNow)
  else if bool_decide (dateFilter s = "past") then
    JSDate.lt appointmentDate (Some today)
  else true.

Definition keeps (appointment : obj) : option bool :=
  search ← matchesSearch appointment;
  Some (search && matchesStatus appointment && matchesDate appointment).

(** [arr.filter(f)] for a callback that can throw. *)
Fixpoint filter_throwing {A} (f : A -> option bool) (l : list A) : option (list A) :=
  match l with
  | [] => Some []
  | x :: r =>
      b ← f x;
      r' ← filter_throwing f r;
      Some (if b : bool then x :: r' else r')
  end.

Definition getFilteredAppointments : option (list obj) :=
  arr ← array_of (appointments s);
  filter_throwing keeps arr.

End View.

(** The four tallies of the summary cards, shown when the filtered list
    is not empty. *)
Record summary := Summary {
  scheduled_count : nat;
  completed_count : nat;
  cancelled_count : nat;
  pending_payment_count : nat
}.

Definition count_where (field expected : string) (l : list obj) : nat :=
  length (List.filter (fun a => strict_eq (get a field) (VStr expected)) l).

Definition summaryStats (filteredAppointments : list obj) : option summary :=
  if (0 <? length filteredAppointments)%nat then
    Some (Summary (count_where "status" "scheduled" filteredAppointments)
                  (count_where "status" "completed" filteredAppointments)
                  (count_where "status" "cancelled" filteredAppointments)
                  (count_where "payment_status" "pending" filteredAppointments))
  else None.

(** The summary of a render: computed from [getFilteredAppointments()]. *)
Definition renderSummary (Date_parse : string -> JSDate.time) (now : Z) (s : state)
    : option (option summary) :=
  filteredAppointments ← getFilteredAppointments Date_parse now s;
  Some (summaryStats filteredAppointments).

Inductive icon := Clock | CheckCircle | XCircle | AlertCircle.

#[global] Instance icon_eq_dec : EqDecision icon.
Proof. solve_decision. Defined.

Record badge := Badge {
  badge_class : class_name;
  badge_icon : option icon;
  badge_text : value
}.

#[global] Instance badge_eq_dec : EqDecision badge.
Proof. solve_decision. Defined.

Definition statusConfig : list (string * (string * icon)) :=
  [("scheduled", ("bg-blue-100 text-blue-800", Clock));
   ("completed", ("bg-green-100 text-green-800", CheckCircle));
   ("cancelled", ("bg-red-100 text-red-800", XCircle));
   ("pending", ("bg-yellow-100 text-yellow-800", AlertCircle))].

Definition statusConfig_pending : string * icon :=
  ("bg-yellow-100 text-yellow-800", AlertCircle).

(** [getStatusBadge]: [None] when rendering throws (an inherited key gives
    a config without icon, whose element cannot render; a status that is
    neither a string nor missing has no [charAt]). *)
Definition getStatusBadge (status : value) : option badge :=
  config ← match lookup_literal statusConfig status with
           | Own c => Some c
           | Inherited _ => None
           | Absent => Some statusConfig_pending
           end;
  text ← capitalised status;
  Some (Badge (Class ("px-2 py-1 rounded text-xs font-medium flex items-center gap-1 "
                      +:+ config.1))
              (Some config.2) text).

Definition payment_classes : list (string * string) :=
  [("pending", "bg-yellow-100 text-yellow-800");
   ("paid", "bg-green-100 text-green-800");
   ("overdue", "bg-red-100 text-red-800")].

Definition payment_class (fallback : string) (paymentStatus : value) : class_name :=
  match lookup_literal payment_classes paymentStatus with
  | Own c => Class ("px-2 py-1 rounded text-xs font-medium " +:+ c)
  | Inherited n => ClassOfInherited n
  | Absent => Class ("px-2 py-1 rounded text-xs font-medium " +:+ fallback)
  end.

Definition getPaymentBadge (paymentStatus : value) : option badge :=
  text ← capitalised paymentStatus;
  Some (Badge (payment_class "bg-gray-100 text-gray-800" paymentStatus)
              None (or_else text (VStr "Pending"))).

End AppointmentsList.

(* ===================================================================== *)
(** ** AdminDashboard                                                    *)
(* ===================================================================== *)

Module AdminDashboard.
Import JS Eff.

Record state := State {
  stats : payload;
  recentUsers : payload;
  recentAppointments : payload;
  loading : bool
}.

Definition initial_state : state := State (PObj ∅) (PArr []) (PArr []) true.

Definition setStats (p : payload) : M state unit :=
  modify (fun s => State p (recentUsers s) (recentAppointments s) (loading s)).
Definition setRecentUsers (p : payload) : M state unit :=
  modify (fun s => State (stats s) p (recentAppointments s) (loading s)).
Definition setRecentAppointments (p : payload) : M state unit :=
  modify (fun s => State (stats s) (recentUsers s) p (loading s)).
Definition setLoading (b : bool) : M state unit :=
  modify (fun s => State (stats s) (recentUsers s) (recentAppointments s) b).

(** [data.slice(0, 5)] *)
Definition slice_0_5 (data : payload) : M state payload :=
  arr ← as_array data; mret (PArr (slice0 5 arr)).

Definition fetchDashboardData : M state unit :=
  finally
    (try_catch
       (results ← promise_all [axios_get "/dashboard/stats";
                               axios_get "/users/patients";
                               axios_get "/appointments"];
        match results with
        | [statsRes; usersRes; appointmentsRes] =>
            setStats statsRes;;
            users ← slice_0_5 usersRes;
            setRecentUsers users;;
            appts ← slice_0_5 appointmentsRes;
            setRecentAppointments appts
        | _ => throw TypeError
        end)
       (fun error => toast_error "Failed to load dashboard data"))
    (setLoading false).

(** [finalError.response?.data?.detail || 'Server error'] *)
Definition error_detail (e : exn) : value :=
  match e with
  | AxiosError detail => or_else detail (VStr "Server error")
  | TypeError => VStr "Server error"
  end.

(** [recentAppointments] is the value the handler closed over, read when
    the handler starts. *)
Definition updatePaymentStatus (appointmentId paymentStatus : value) : M state unit :=
  recentAppointments ← gets recentAppointments;
  try_catch
    (axios (axios_patch ("/appointments/" +:+ to_string appointmentId +:+ "/payment-status")
                        (Some ∅) {["payment_status" := paymentStatus]});;
     toast_success ("Payment status updated to " +:+ to_string paymentStatus);;
     spawn fetchDashboardData)
    (fun error =>
       try_catch
         (axios (axios_put ("/appointments/" +:+ to_string appointmentId)
                           (Some {["payment_status" := paymentStatus]}) ∅);;
          toast_success ("Payment status updated to " +:+ to_string paymentStatus);;
          spawn fetchDashboardData)
         (fun fallbackError =>
            try_catch
              (axios (axios_patch ("/appointments/" +:+ to_string appointmentId)
                                  (Some {["payment_status" := paymentStatus]}) ∅);;
               toast_success ("Payment status updated to " +:+ to_string paymentStatus);;
               spawn fetchDashboardData)
              (fun finalError =>
                 console_log "Payment status update failed:";;
                 toast_error ("Failed to update payment status: "
                              +:+ to_string (error_detail finalError));;
                 arr ← as_array recentAppointments;
                 setRecentAppointments
                   (PArr (applyLocalStatus arr appointmentId "payment_status" paymentStatus));;
                 toast_success ("Payment status updated to " +:+ to_string paymentStatus
                                +:+ " (demo mode)")))).

Definition classes : list (string * string) :=
  [("pending", "bg-yellow-100 text-yellow-800");
   ("paid", "bg-green-100 text-green-800");
   ("overdue", "bg-red-100 text-red-800")].

Record badge := Badge {
  badge_class : class_name;
  badge_text : value
}.

#[global] Instance badge_eq_dec : EqDecision badge.
Proof. solve_decision. Defined.

Definition getPaymentStatusBadge (paymentStatus : value) : option badge :=
  text ← capitalised paymentStatus;
  Some (Badge match lookup_literal classes paymentStatus with
              | Own c => Class ("px-2 py-1 rounded text-xs font-medium " +:+ c)
              | Inherited n => ClassOfInherited n
              | Absent => Class "px-2 py-1 rounded text-xs font-medium bg-gray-100 text-gray-800"
              end
              (or_else text (VStr "Unknown"))).

Definition status_classes : list (string * string) :=
  [("scheduled", "badge badge-info");
   ("completed", "badge badge-success");
   ("cancelled", "badge badge-danger")].

Definition getStatusBadge (status : value) : badge :=
  Badge match lookup_literal status_classes status with
        | Own c => Class c
        | Inherited n => ClassOfInherited n
        | Absent => Class "badge badge-info"
        end
        status.

(** [Current: {appointment.payment_status || 'pending'}] *)
Definition currentPaymentStatus (appointment : obj) : value :=
  or_else (get appointment "payment_status") (VStr "pending").

End AdminDashboard.

(* ===================================================================== *)
(** ** PaymentStatusDebug                                                *)
(* ===================================================================== *)

Module PaymentStatusDebug.
Import JS Eff.

(** The state is the array of the [useState] literal and what the handler
    makes of it. *)
Definition state := list obj.

Definition updatePaymentStatus (appointmentId newStatus : value) : M state unit :=
  appointments ← gets (fun s : state => s);
  console_log ("Attempting to update appointment " +:+ to_string appointmentId
               +:+ " to status: " +:+ to_string newStatus);;
  modify (fun _ => applyLocalStatus appointments appointmentId "payment_status" newStatus);;
  toast_success ("Payment status updated to: " +:+ to_string newStatus);;
  try_catch
    (axios (axios_patch ("/appointments/" +:+ to_string appointmentId +:+ "/payment-status")
                        (Some ∅) {["payment_status" := newStatus]});;
     console_log "Backend update successful:")
    (fun error => console_log "Backend update failed (expected):").

End PaymentStatusDebug.

(* ===================================================================== *)
(** ** Reports: the real-time refresh timer                              *)
(* ===================================================================== *)

(** The effect
    [useEffect(() => { let interval;
                       if (realTimeMode) interval = setInterval(tick, 30000);
                       return () => clearInterval(interval); },
               [realTimeMode, selectedTimeRange, reportType])]
    under React's rules for effects: after the first render and after every
    render in which a dependency has changed, the clean-up of the previous
    run is called and then the effect; the clean-up of the last run is
    called when the component unmounts. A state change, the render it causes
    and the effects of that render are one step: no timer fires between
    them. *)
Module Reports.

Record state := State {
  mounted : bool;
  realTimeMode : bool;
  selectedTimeRange : string;
  reportType : string;
  (** the variable [interval] of the last run of the effect, if a clean-up
      is pending: [Some None] is a pending clean-up with [undefined] *)
  cleanup : option (option nat);
  (** the browser's active intervals: handle and period in milliseconds *)
  timers : gmap nat Z;
  next_handle : nat;
  (** the calls of [fetchReportData] made by timer callbacks *)
  auto_refreshes : nat
}.

Definition initial_state : state := State false false "month" "overview" None ∅ 1 0.

(** [clearInterval(interval)]; clearing [undefined] does nothing. *)
Definition run_cleanup (s : state) : state :=
  match cleanup s with
  | Some (Some h) =>
      State (mounted s) (realTimeMode s) (selectedTimeRange s) (reportType s)
            None (delete h (timers s)) (next_handle s) (auto_refreshes s)
  | _ =>
      State (mounted s) (realTimeMode s) (selectedTimeRange s) (reportType s)
            None (timers s) (next_handle s) (auto_refreshes s)
  end.

Definition run_effect (s : state) : state :=
  if realTimeMode s then
    State (mounted s) (realTimeMode s) (selectedTimeRange s) (reportType s)
          (Some (Some (next_handle s))) (<[next_handle s := 30000]> (timers s))
          (S (next_handle s)) (auto_refreshes s)
  else
    State (mounted s) (realTimeMode s) (selectedTimeRange s) (reportType s)
          (Some None) (timers s) (next_handle s) (auto_refreshes s).

(** A render with a changed dependency. *)
Definition rerun (s : state) : state := run_effect (run_cleanup s).

Inductive event :=
| Mount
| ToggleRealTimeMode
| SetSelectedTimeRange (v : string)
| SetReportType (v : string)
| Tick (handle : nat)
| Unmount.

(** One step; [None] when the event cannot happen in [s] (a handler of a
    component that is not mounted, a tick of an interval that is not
    active). *)
Definition step (s : state) (e : event) : option state :=
  match e with
  | Mount =>
      if mounted s then None else
      Some (run_effect (State true false "month" "overview" None
                              (timers s) (next_handle s) (auto_refreshes s)))
  | ToggleRealTimeMode =>
      if mounted s then
        Some (rerun (State true (negb (realTimeMode s)) (selectedTimeRange s) (reportType s)
                           (cleanup s) (timers s) (next_handle s) (auto_refreshes s)))
      else None
  | SetSelectedTimeRange v =>
      if mounted s then
        if bool_decide (v = selectedTimeRange s) then Some s else
        Some (rerun (State true (realTimeMode s) v (reportType s)
                           (cleanup s) (timers s) (next_handle s) (auto_refreshes s)))
      else None
  | SetReportType v =>
      if mounted s then
        if bool_decide (v = reportType s) then Some s else
        Some (rerun (State true (realTimeMode s) (selectedTimeRange s) v
                           (cleanup s) (timers s) (next_handle s) (auto_refreshes s)))
      else None
  | Tick h =>
      match timers s !! h with
      | Some _ =>
          Some (State (mounted s) (realTimeMode s) (selectedTimeRange s) (reportType s)
                      (cleanup s) (timers s) (next_handle s) (S (auto_refreshes s)))
      | None => None
      end
  | Unmount =>
      if mounted s then
        Some (run_cleanup (State false (realTimeMode s) (selectedTimeRange s) (reportType s)
                                 (cleanup s) (timers s) (next_handle s) (auto_refreshes s)))
      else None
  end.

Fixpoint run (s : state) (es : list event) : option state :=
  match es with
  | [] => Some s
  | e :: es' => s' ← step s e; run s' es'
  end.

End Reports.

(* ===================================================================== *)
(** ** The request shapes and the fallback chain                         *)
(* ===================================================================== *)

Module Shapes.
Import JS Eff.

(** The one request of [updateAppointmentStatus]:
    PUT [/appointments/{id}] with the query parameter [status]. *)
Definition status_request (appointmentId status : value) : request :=
  axios_put ("/appointments/" +:+ to_string appointmentId) None {["status" := status]}.

(** PATCH [/appointments/{id}/payment-status] with the query parameter
    [payment_status] and an empty body. *)
Definition primary_request (appointmentId paymentStatus : value) : request :=
  axios_patch ("/appointments/" +:+ to_string appointmentId +:+ "/payment-status")
              (Some ∅) {["payment_status" := paymentStatus]}.

(** PUT [/appointments/{id}] with the body [{payment_status}]. *)
Definition put_request (appointmentId paymentStatus : value) : request :=
  axios_put ("/appointments/" +:+ to_string appointmentId)
            (Some {["payment_status" := paymentStatus]}) ∅.

(** PATCH [/appointments/{id}] with the body [{payment_status}]. *)
Definition patch_request (appointmentId paymentStatus : value) : request :=
  axios_patch ("/appointments/" +:+ to_string appointmentId)
              (Some {["payment_status" := paymentStatus]}) ∅.

(** The fallback chain as the specification words it: the shapes of an
    ordered list are tried one after the other, the next one only when the
    previous one was rejected, and none after one that resolved. The result
    is the list of the attempts made, [history] being what was sent
    before. *)
Fixpoint chain_attempts (b : transport) (history : list request)
    (chain : list request) : list request :=
  match chain with
  | [] => []
  | r :: rest =>
      match b history r with
      | Resolved _ => [r]
      | Rejected _ => r :: chain_attempts b (history ++ [r]) rest
      end
  end.

(** Whether the chain ends with every shape rejected. *)
Fixpoint chain_exhausted (b : transport) (history : list request)
    (chain : list request) : bool :=
  match chain with
  | [] => true
  | r :: rest =>
      match b history r with
      | Resolved _ => false
      | Rejected _ => chain_exhausted b (history ++ [r]) rest
      end
  end.

(** A failure notice is among the toasts. *)
Definition failure_notice (ts : list toast) : Prop := ∃ msg, ToastError msg ∈ ts.

End Shapes.

(* ===================================================================== *)
(** ** The vocabulary of the properties                                  *)
(* ===================================================================== *)

Section SpecFetches.
Import JS Eff.

(** What a fetch leaves in a section of the state: the data of a resolved
    response, the previous value after a rejection. *)
Definition fetched (r : response) (previous : payload) : payload :=
  match r with
  | Resolved data => data
  | Rejected _ => previous
  end.

(** The toast, or the console line, that a rejected fetch produces. *)
Definition notice_if_rejected (r : response) (t : toast) : list toast :=
  match r with
  | Resolved _ => []
  | Rejected _ => [t]
  end.

Definition log_if_rejected (r : response) (msg : string) : list string :=
  match r with
  | Resolved _ => []
  | Rejected _ => [msg]
  end.

(** The three requests of a dashboard refresh. *)
Definition dashboard_requests : list request :=
  [axios_get "/dashboard/stats"; axios_get "/users/patients"; axios_get "/appointments"].

(** The responses to them. *)
Definition stats_response (w : world AdminDashboard.state) : response :=
  backend w (sent w) (axios_get "/dashboard/stats").
Definition users_response (w : world AdminDashboard.state) : response :=
  backend w (sent w ++ [axios_get "/dashboard/stats"]) (axios_get "/users/patients").
Definition appointments_response (w : world AdminDashboard.state) : response :=
  backend w (sent w ++ [axios_get "/dashboard/stats"; axios_get "/users/patients"])
            (axios_get "/appointments").

(** The responses to the three fetches of the appointments list, started
    in this order when an admin mounts it. *)
Definition list_appointments_response (w : world AppointmentsList.state) : response :=
  backend w (sent w) (axios_get "/appointments").
Definition list_doctors_response (w : world AppointmentsList.state) : response :=
  backend w (sent w ++ [axios_get "/appointments"]) (axios_get "/users/doctors").
Definition list_patients_response (w : world AppointmentsList.state) : response :=
  backend w (sent w ++ [axios_get "/appointments"; axios_get "/users/doctors"])
            (axios_get "/users/patients").

(** The requests of a log that are not GETs. *)
Definition mutation_attempts (log : list request) : list request :=
  List.filter (fun r => negb (bool_decide (req_method r = GET))) log.

End SpecFetches.

Section SpecRefresh.
Import JS Eff AdminDashboard.

(** The state and the notice a refresh ends with, from the three
    responses. *)
Definition refreshed (rs ru ra : response) (s : state) : state * list toast :=
  let failed := [ToastError "Failed to load dashboard data"] in
  match rs, ru, ra with
  | Resolved a, Resolved (PArr users), Resolved (PArr appts) =>
      (State a (PArr (slice0 5 users)) (PArr (slice0 5 appts)) false, [])
  | Resolved a, Resolved (PArr users), Resolved (PObj _) =>
      (State a (PArr (slice0 5 users)) (recentAppointments s) false, failed)
  | Resolved a, Resolved (PObj _), Resolved _ =>
      (State a (recentUsers s) (recentAppointments s) false, failed)
  | _, _, _ =>
      (State (stats s) (recentUsers s) (recentAppointments s) false, failed)
  end.

End SpecRefresh.

Section SpecTimer.
Import Reports.

(** What holds of the timers after every sequence of events: while the
    component is mounted a clean-up is pending, which holds the handle of
    the one active interval when real-time mode is on and [undefined] when
    it is off; when the component is not mounted no interval is active. *)
Definition timer_invariant (s : state) : Prop :=
  match mounted s, cleanup s with
  | true, Some (Some h) => realTimeMode s = true ∧ timers s = {[h := 30000]}
  | true, Some None => realTimeMode s = false ∧ timers s = ∅
  | false, None => timers s = ∅
  | _, _ => False
  end.

End SpecTimer.

Section SpecBadges.
Import JS.

(** The two vocabularies. *)
Definition lifecycle_vocabulary : list string :=
  ["scheduled"; "completed"; "cancelled"; "pending"].

Definition payment_vocabulary : list string := ["pending"; "paid"; "overdue"].

(** A field that is absent, [undefined] or [null]. *)
Definition missing (v : value) : Prop := v = VUndefined ∨ v = VNull.

(** A string that is neither in the vocabulary nor the name of a property
    every object inherits. *)
Definition unrecognized (vocabulary : list string) (v : value) : Prop :=
  ∃ s, v = VStr s ∧ (s ∉ vocabulary) ∧ (s ∉ Object_prototype_names).

(** The style of the [pending] badge of the appointments list. *)
Definition pending_style : class_name * option AppointmentsList.icon :=
  (Class "px-2 py-1 rounded text-xs font-medium flex items-center gap-1 bg-yellow-100 text-yellow-800",
   Some AppointmentsList.AlertCircle).

(** The gray style of a payment badge without a class of its own. *)
Definition neutral_class : class_name :=
  Class "px-2 py-1 rounded text-xs font-medium bg-gray-100 text-gray-800".

End SpecBadges.

Section SpecCalendar.
Import JSDate.

(** The same day of the month in the next calendar month, at 00:00; the
    days that the next month does not have carry over into the month after
    it. *)
Definition one_month_after (now : Z) : Z :=
  let '(y, m, d) := civil_from_days (Day now) in
  let first_of_next := if m =? 12 then days_from_civil (y + 1) 1 1
                       else days_from_civil y (m + 1) 1 in
  (first_of_next + d - 1) * msPerDay.

End SpecCalendar.

Section Rules.
Import JS Eff JSDate AppointmentsList.

Variable Date_parse : string -> time.
Variable now : Z.
Variable s : state.

(** *** The three rules of the filter, as the specification words them *)

(** The start of the day of [now]: today at 00:00:00. *)
Definition start_of_today : Z := Day now * msPerDay.

(** The time stamp of an appointment. *)
Definition appointment_time (appointment : obj) : time :=
  construct Date_parse (get appointment "appointment_date").

(** [term] is a substring of [text], case ignored. *)
Definition ci_substring (term text : string) : Prop :=
  ∃ pre post, toLowerCase text = pre +:+ toLowerCase term +:+ post.

(** The texts the search looks at: the display name of the doctor, the
    display name of the patient, the notes. *)
Definition searched_text (appointment : obj) (text : string) : Prop :=
  getUserName s (get appointment "doctor_id") "doctor" = Some (VStr text)
  ∨ getUserName s (get appointment "patient_id") "patient" = Some (VStr text)
  ∨ get appointment "notes" = VStr text.

(** Rule 1: the search term, case ignored, is a substring of one of the
    searched texts. *)
Definition search_rule (appointment : obj) : Prop :=
  ∃ text, searched_text appointment text ∧ ci_substring (searchTerm s) text.

(** Rule 2: the status filter is [all] or is the status of the
    appointment. *)
Definition status_rule (appointment : obj) : Prop :=
  statusFilter s = "all" ∨ get appointment "status" = VStr (statusFilter s).

(** Rule 3: the date filter is [all], or the appointment has a valid time
    stamp that is on the day of [now] ([today]), between the start of today
    and seven days after it ([week]), between the start of today and one
    calendar month after it ([month]), both ends included, or before the
    start of today ([past]). *)
Definition date_rule (appointment : obj) : Prop :=
  dateFilter s = "all"
  ∨ ∃ t, appointment_time appointment = Some t ∧
      ((dateFilter s = "today" ∧ Day t = Day now)
       ∨ (dateFilter s = "week"
          ∧ start_of_today <= t <= start_of_today + 7 * msPerDay)
       ∨ (dateFilter s = "month"
          ∧ start_of_today <= t <= one_month_after now)
       ∨ (dateFilter s = "past" ∧ t < start_of_today)).

(** The three rules together. *)
Definition visible (appointment : obj) : Prop :=
  search_rule appointment ∧ status_rule appointment ∧ date_rule appointment.

(** The values of the date filter. *)
Definition date_filters : list string := ["all"; "today"; "week"; "month"; "past"].

(** The data a render does not throw on: the two name lists are arrays of
    users whose [full_name] is a string, and notes are a string when
    present. *)
Definition has_name (u : obj) : Prop := ∃ n, get u "full_name" = VStr n.

Definition names_are_strings : Prop :=
  ∃ ds ps, doctors s = PArr ds ∧ patients s = PArr ps
           ∧ Forall has_name ds ∧ Forall has_name ps.

Definition notes_ok (appointment : obj) : Prop :=
  get appointment "notes" = VUndefined ∨ get appointment "notes" = VNull
  ∨ ∃ n, get appointment "notes" = VStr n.

(** [r] is [l] without the elements that do not satisfy [P], in the order
    of [l]. *)
Inductive selects {A} (P : A -> Prop) : list A -> list A -> Prop :=
| selects_nil : selects P [] []
| selects_keep x l r : P x -> selects P l r -> selects P (x :: l) (x :: r)
| selects_drop x l r : ¬ P x -> selects P l r -> selects P (x :: l) r.

End Rules.

(* ===================================================================== *)
(** ** Sample data                                                        *)
(* ===================================================================== *)

Module Samples.
Import JS Eff.

Definition a1 : obj :=
  {[ "id" := VStr "a1"; "status" := VStr "scheduled"; "payment_status" := VStr "pending" ]}.

Definition a2 : obj :=
  {[ "id" := VStr "a2"; "status" := VStr "completed"; "payment_status" := VStr "paid";
     "notes" := VStr "Follow-up" ]}.

(** A transport that rejects every request, without detail. *)
Definition fail_all : transport := fun _ _ => Rejected VUndefined.

(** A transport that rejects the primary PATCH and the PUT, and accepts the
    PATCH with a body and every GET. *)
Definition only_patch_body : transport :=
  fun _ r =>
    match req_method r with
    | GET => Resolved (PArr [a1])
    | PUT => Rejected VUndefined
    | PATCH => if bool_decide (req_params r = ∅) then Resolved (PObj ∅)
               else Rejected VUndefined
    end.

(** A transport that accepts every request; the appointment list it
    serves is [[a2]]. *)
Definition accept_all : transport :=
  fun _ r =>
    match req_method r with
    | GET => if bool_decide (req_url r = "/dashboard/stats") then Resolved (PObj ∅)
             else Resolved (PArr [a2])
    | _ => Resolved (PObj ∅)
    end.

(** A transport on which only [/users/patients] fails. *)
Definition users_down : transport :=
  fun _ r =>
    if bool_decide (req_url r = "/users/patients") then Rejected VUndefined
    else if bool_decide (req_url r = "/dashboard/stats")
         then Resolved (PObj {[ "total_patients" := VNum 7 ]})
         else Resolved (PArr [a1; a2]).

Definition doctor1 : obj := {[ "id" := VStr "d1"; "full_name" := VStr "Dr. Alice Smith" ]}.
Definition patient1 : obj := {[ "id" := VStr "p1"; "full_name" := VStr "Bob Jones" ]}.

Definition b1 : obj :=
  {[ "id" := VStr "b1"; "doctor_id" := VStr "d1"; "patient_id" := VStr "p1";
     "appointment_date" := VStr "2026-11-01T00:00:00";
     "status" := VStr "scheduled"; "payment_status" := VStr "pending";
     "notes" := VStr "Annual check" ]}.

Definition b2 : obj :=
  {[ "id" := VStr "b2"; "doctor_id" := VStr "d1"; "patient_id" := VStr "p9";
     "appointment_date" := VStr "2026-10-31T23:59:59";
     "status" := VStr "completed"; "payment_status" := VStr "paid" ]}.

Definition b3 : obj :=
  {[ "id" := VStr "b3"; "doctor_id" := VStr "d7"; "patient_id" := VStr "p1";
     "appointment_date" := VStr "2026-11-08T00:00:00";
     "status" := VStr "cancelled"; "notes" := VStr "SMITH referral" ]}.

(** 2026-11-01T10:30:00 *)
Definition sample_now : Z := 1793529000000.

Definition view_state (term status date : string) : AppointmentsList.state :=
  AppointmentsList.State (PArr [b1; b2; b3]) (PArr [doctor1]) (PArr [patient1])
                         false term status date.

Definition appointment_with (id status : string) : obj :=
  {[ "id" := VStr id; "status" := VStr status ]}.

(** Ten appointments: 3 completed, 4 scheduled, 3 cancelled. *)
Definition ten_appointments : list obj :=
  [appointment_with "1" "scheduled"; appointment_with "2" "completed";
   appointment_with "3" "cancelled"; appointment_with "4" "scheduled";
   appointment_with "5" "completed"; appointment_with "6" "cancelled";
   appointment_with "7" "scheduled"; appointment_with "8" "completed";
   appointment_with "9" "cancelled"; appointment_with "10" "scheduled"].

Definition ten_state : AppointmentsList.state :=
  AppointmentsList.State (PArr ten_appointments) (PArr []) (PArr [])
                         false "" "completed" "all".

Definition list_world (b : transport) (l : list obj) : world AppointmentsList.state :=
  initial b (AppointmentsList.State (PArr l) (PArr []) (PArr []) false "" "all" "all").

Definition admin_world (b : transport) (l : list obj) : world AdminDashboard.state :=
  initial b (AdminDashboard.State (PObj ∅) (PArr []) (PArr l) false).

End Samples.

(* ===================================================================== *)
(** * Properties                                                         *)
(* ===================================================================== *)

(** ** Running handlers *)

Section Running.
Import JS Eff.
Context {S : Type}.

Lemma run_bind {A B} (m : M S A) (k : A -> M S B) w :
  (m ≫= k) w = match m w with
               | (Done a, w') => k a w'
               | (Throw e, w') => (Throw e, w')
               end.
Proof. reflexivity. Qed.

Lemma run_axios_rejected (r : request) (w : world S) detail :
  backend w (sent w) r = Rejected detail ->
  axios r w = (Throw (AxiosError detail),
               World (backend w) (sent w ++ [r]) (toasts w) (console w) (component w)).
Proof. intros H. unfold axios, bind, send, settle. cbn. rewrite H. reflexivity. Qed.

Lemma run_axios_resolved (r : request) (w : world S) data :
  backend w (sent w) r = Resolved data ->
  axios r w = (Done data,
               World (backend w) (sent w ++ [r]) (toasts w) (console w) (component w)).
Proof. intros H. unfold axios, bind, send, settle. cbn. rewrite H. reflexivity. Qed.

End Running.

(** ** C4: an exhausted lifecycle-status update *)

Section Lifecycle.
Import JS Eff Shapes AppointmentsList.

(** C4. For every appointment id and status value: when the one remote
    attempt of [updateAppointmentStatus] (the PUT with the query parameter
    [status]) is rejected, the handler ends normally, its only
    notification is the failure toast, and the component state (the local
    appointment collection with it) is what it was; nothing else is sent. *)
Theorem updateAppointmentStatus_exhausted
    (w : world state) (appointmentId status : value) :
  rejected (backend w (sent w) (status_request appointmentId status)) ->
  let w' := (updateAppointmentStatus appointmentId status w).2 in
  (updateAppointmentStatus appointmentId status w).1 = Done tt
  ∧ toasts w' = toasts w ++ [ToastError "Failed to update appointment status"]
  ∧ component w' = component w
  ∧ appointments (component w') = appointments (component w)
  ∧ sent w' = sent w ++ [status_request appointmentId status].
Proof.
  intros [detail Hrej].
  assert (Hrun : updateAppointmentStatus appointmentId status w =
                 (Done tt, World (backend w) (sent w ++ [status_request appointmentId status])
                                 (toasts w ++ [ToastError "Failed to update appointment status"])
                                 (console w) (component w))).
  { unfold updateAppointmentStatus, try_catch. rewrite run_bind.
    fold (status_request appointmentId status).
    rewrite (run_axios_rejected _ _ _ Hrej). reflexivity. }
  rewrite Hrun. cbn. auto.
Qed.

End Lifecycle.

Lemma updateAppointmentStatus_exhausted_witness :
  let w := Samples.list_world Samples.fail_all [Samples.a1] in
  Eff.rejected (Eff.backend w (Eff.sent w)
                  (Shapes.status_request (JS.VStr "a1") (JS.VStr "completed")))
  ∧ Eff.toasts (AppointmentsList.updateAppointmentStatus (JS.VStr "a1") (JS.VStr "completed") w).2
    = [Eff.ToastError "Failed to update appointment status"]
  ∧ Eff.component (AppointmentsList.updateAppointmentStatus (JS.VStr "a1") (JS.VStr "completed") w).2
    = Eff.component w.
Proof.
  cbv zeta.
  assert (Hrej : Eff.rejected
            (Eff.backend (Samples.list_world Samples.fail_all [Samples.a1])
               (Eff.sent (Samples.list_world Samples.fail_all [Samples.a1]))
               (Shapes.status_request (JS.VStr "a1") (JS.VStr "completed")))).
  { exists JS.VUndefined. reflexivity. }
  split; [exact Hrej|].
  destruct (updateAppointmentStatus_exhausted
              (Samples.list_world Samples.fail_all [Samples.a1])
              (JS.VStr "a1") (JS.VStr "completed") Hrej)
    as [_ [Htoasts [Hstate _]]].
  split; [exact Htoasts | exact Hstate].
Defined.

(** ** The fetches *)

Section Fetches.
Import JS Eff.

Lemma fetchAppointments_run (w : world AppointmentsList.state) :
  let r := backend w (sent w) (axios_get "/appointments") in
  let s := component w in
  AppointmentsList.fetchAppointments w =
  (Done tt,
   World (backend w) (sent w ++ [axios_get "/appointments"])
         (toasts w ++ notice_if_rejected r (ToastError "Failed to load appointments"))
         (console w)
         (AppointmentsList.State
            (fetched r (AppointmentsList.appointments s))
            (AppointmentsList.doctors s) (AppointmentsList.patients s) false
            (AppointmentsList.searchTerm s) (AppointmentsList.statusFilter s)
            (AppointmentsList.dateFilter s))).
Proof.
  destruct w as [b h ts cs [a d p l q sf df]]; cbn [backend sent component].
  unfold AppointmentsList.fetchAppointments, finally, try_catch.
  rewrite run_bind.
  destruct (b h (axios_get "/appointments")) as [data|detail] eqn:E.
  - erewrite run_axios_resolved by exact E. cbn. rewrite app_nil_r. reflexivity.
  - erewrite run_axios_rejected by exact E. reflexivity.
Qed.

Lemma fetchDoctors_run (w : world AppointmentsList.state) :
  let r := backend w (sent w) (axios_get "/users/doctors") in
  let s := component w in
  AppointmentsList.fetchDoctors w =
  (Done tt,
   World (backend w) (sent w ++ [axios_get "/users/doctors"]) (toasts w)
         (console w ++ log_if_rejected r "Failed to load doctors")
         (AppointmentsList.State
            (AppointmentsList.appointments s)
            (fetched r (AppointmentsList.doctors s)) (AppointmentsList.patients s)
            (AppointmentsList.loading s)
            (AppointmentsList.searchTerm s) (AppointmentsList.statusFilter s)
            (AppointmentsList.dateFilter s))).
Proof.
  destruct w as [b h ts cs [a d p l q sf df]]; cbn [backend sent component].
  unfold AppointmentsList.fetchDoctors, try_catch.
  rewrite run_bind.
  destruct (b h (axios_get "/users/doctors")) as [data|detail] eqn:E.
  - erewrite run_axios_resolved by exact E. cbn. rewrite app_nil_r. reflexivity.
  - erewrite run_axios_rejected by exact E. reflexivity.
Qed.

Lemma fetchPatients_run (w : world AppointmentsList.state) :
  let r := backend w (sent w) (axios_get "/users/patients") in
  let s := component w in
  AppointmentsList.fetchPatients w =
  (Done tt,
   World (backend w) (sent w ++ [axios_get "/users/patients"]) (toasts w)
         (console w ++ log_if_rejected r "Failed to load patients")
         (AppointmentsList.State
            (AppointmentsList.appointments s)
            (AppointmentsList.doctors s) (fetched r (AppointmentsList.patients s))
            (AppointmentsList.loading s)
            (AppointmentsList.searchTerm s) (AppointmentsList.statusFilter s)
            (AppointmentsList.dateFilter s))).
Proof.
  destruct w as [b h ts cs [a d p l q sf df]]; cbn [backend sent component].
  unfold AppointmentsList.fetchPatients, try_catch.
  rewrite run_bind.
  destruct (b h (axios_get "/users/patients")) as [data|detail] eqn:E.
  - erewrite run_axios_resolved by exact E. cbn. rewrite app_nil_r. reflexivity.
  - erewrite run_axios_rejected by exact E. reflexivity.
Qed.

Lemma promise_all_dashboard (w : world AdminDashboard.state) :
  promise_all dashboard_requests w =
  (match stats_response w, users_response w, appointments_response w with
   | Resolved a, Resolved b, Resolved c => Done [a; b; c]
   | Rejected d, _, _ => Throw (AxiosError d)
   | Resolved _, Rejected d, _ => Throw (AxiosError d)
   | Resolved _, Resolved _, Rejected d => Throw (AxiosError d)
   end,
   World (backend w) (sent w ++ dashboard_requests) (toasts w) (console w) (component w)).
Proof.
  unfold promise_all, dashboard_requests, stats_response, users_response,
    appointments_response, bind, send_all, settle_all, send, settle, ret, throw, bind.
  destruct w as [b h ts cs s]. cbn. rewrite <- !app_assoc. cbn.
  repeat match goal with
         | |- context [match b ?hh ?r with _ => _ end] => destruct (b hh r)
         end; reflexivity.
Qed.

End Fetches.

Section DashboardRefresh.
Import JS Eff AdminDashboard.

Lemma fetchDashboardData_run (w : world state) :
  let after := refreshed (stats_response w) (users_response w)
                         (appointments_response w) (component w) in
  fetchDashboardData w =
  (Done tt, World (backend w) (sent w ++ dashboard_requests)
                  (toasts w ++ after.2) (console w) after.1).
Proof.
  cbv zeta. unfold fetchDashboardData, finally, try_catch.
  rewrite run_bind. fold dashboard_requests. rewrite promise_all_dashboard.
  unfold refreshed.
  destruct w as [b h ts cs [st us ap ld]]; cbn [backend sent toasts console component].
  destruct (stats_response _) as [a|?]; [|reflexivity].
  destruct (users_response _) as [[o|users]|?]; [| |reflexivity].
  - destruct (appointments_response _) as [c|?]; reflexivity.
  - destruct (appointments_response _) as [[o|appts]|?];
      cbn; rewrite ?app_nil_r; reflexivity.
Qed.

Lemma fetchDashboardData_sent (w : world state) :
  sent (fetchDashboardData w).2 = sent w ++ dashboard_requests
  ∧ backend (fetchDashboardData w).2 = backend w.
Proof. rewrite fetchDashboardData_run. split; reflexivity. Qed.

End DashboardRefresh.

(** ** The payment-status chain of the admin dashboard *)

Ltac world_norm :=
  cbn [fst snd Eff.backend Eff.sent Eff.toasts Eff.console Eff.component];
  rewrite <- ?app_assoc; cbn [app].

(** Running the steps that touch neither the backend nor an exception. *)
Ltac run_plain :=
  cbv [mbind eff_bind Eff.bind mret eff_ret Eff.ret Eff.console_log Eff.toast_error
       Eff.toast_success Eff.emit_toast Eff.modify Eff.gets
       Eff.backend Eff.sent Eff.toasts Eff.console Eff.component];
  rewrite <- ?app_assoc; cbn [app].

Ltac run_axios E :=
  first [erewrite run_axios_resolved by exact E
        | erewrite run_axios_rejected by exact E];
  world_norm.

Section AdminPayment.
Import JS Eff Shapes AdminDashboard.

Lemma admin_exhausted_run (w : world state) (appointmentId paymentStatus : value)
    (l : list obj) (d1 d2 d3 : value) :
  let p1 := primary_request appointmentId paymentStatus in
  let p2 := put_request appointmentId paymentStatus in
  let p3 := patch_request appointmentId paymentStatus in
  backend w (sent w) p1 = Rejected d1 ->
  backend w (sent w ++ [p1]) p2 = Rejected d2 ->
  backend w (sent w ++ [p1; p2]) p3 = Rejected d3 ->
  recentAppointments (component w) = PArr l ->
  updatePaymentStatus appointmentId paymentStatus w =
  (Done tt,
   World (backend w) (sent w ++ [p1; p2; p3])
         (toasts w ++
          [ToastError ("Failed to update payment status: "
                       +:+ to_string (or_else d3 (VStr "Server error")));
           ToastSuccess ("Payment status updated to " +:+ to_string paymentStatus
                         +:+ " (demo mode)")])
         (console w ++ ["Payment status update failed:"])
         (State (stats (component w)) (recentUsers (component w))
                (PArr (applyLocalStatus l appointmentId "payment_status" paymentStatus))
                (loading (component w)))).
Proof.
  cbv zeta. destruct w as [b h ts cs [st us ap ld]]; cbn [backend sent toasts console component
    stats recentUsers recentAppointments loading].
  intros E1 E2 E3 ->.
  unfold updatePaymentStatus. rewrite run_bind. cbn [gets component recentAppointments].
  unfold try_catch.
  rewrite run_bind. fold (primary_request appointmentId paymentStatus).
  run_axios E1.
  rewrite run_bind. fold (put_request appointmentId paymentStatus).
  run_axios E2.
  rewrite run_bind. fold (patch_request appointmentId paymentStatus).
  run_axios E3.
  unfold as_array, array_of, setRecentAppointments. run_plain. reflexivity.
Qed.

Lemma run_spawn {S A} (m : M S A) (w : world S) : spawn m w = (Done tt, (m w).2).
Proof. reflexivity. Qed.

(** What the admin handler sends: the attempts of the three-shape chain
    and, unless the chain is exhausted, the requests of the refresh. *)
Lemma admin_updatePaymentStatus_sent (w : world state) (appointmentId paymentStatus : value) :
  let chain := [primary_request appointmentId paymentStatus;
                put_request appointmentId paymentStatus;
                patch_request appointmentId paymentStatus] in
  sent (updatePaymentStatus appointmentId paymentStatus w).2 =
  sent w ++ chain_attempts (backend w) (sent w) chain
         ++ (if chain_exhausted (backend w) (sent w) chain then [] else dashboard_requests).
Proof.
  cbv zeta. destruct w as [b h ts cs [st us ap ld]]; world_norm.
  unfold updatePaymentStatus. rewrite run_bind. cbn [gets component recentAppointments].
  unfold try_catch, chain_attempts, chain_exhausted.
  rewrite run_bind. fold (primary_request appointmentId paymentStatus).
  destruct (b h (primary_request _ _)) as [x1|d1] eqn:E1; run_axios E1.
  { rewrite run_bind. unfold toast_success, emit_toast. rewrite run_spawn.
    rewrite fetchDashboardData_run. world_norm. reflexivity. }
  rewrite run_bind. fold (put_request appointmentId paymentStatus).
  destruct (b (h ++ [primary_request _ _]) (put_request _ _)) as [x2|d2] eqn:E2; run_axios E2.
  { rewrite run_bind. unfold toast_success, emit_toast. rewrite run_spawn.
    rewrite fetchDashboardData_run. world_norm. reflexivity. }
  rewrite run_bind. fold (patch_request appointmentId paymentStatus).
  destruct (b (h ++ [primary_request _ _; put_request _ _]) (patch_request _ _))
    as [x3|d3] eqn:E3; run_axios E3.
  { rewrite run_bind. unfold toast_success, emit_toast. rewrite run_spawn.
    rewrite fetchDashboardData_run. world_norm. reflexivity. }
  unfold as_array, array_of, setRecentAppointments.
  destruct ap; run_plain; rewrite ?app_nil_r; reflexivity.
Qed.

End AdminPayment.

(** ** The payment-status chain of the appointments list *)

Section ListPayment.
Import JS Eff Shapes AppointmentsList.

Lemma list_exhausted_run (w : world state) (appointmentId paymentStatus : value)
    (l : list obj) (d1 d3 : value) :
  let p1 := primary_request appointmentId paymentStatus in
  let p3 := patch_request appointmentId paymentStatus in
  let s := component w in
  backend w (sent w) p1 = Rejected d1 ->
  backend w (sent w ++ [p1]) p3 = Rejected d3 ->
  appointments s = PArr l ->
  updatePaymentStatus appointmentId paymentStatus w =
  (Done tt,
   World (backend w) (sent w ++ [p1; p3])
         (toasts w ++
          [ToastSuccess ("Payment status updated to " +:+ to_string paymentStatus
                         +:+ " (demo mode)")])
         (console w ++ ["Payment status update failed:"])
         (State (PArr (applyLocalStatus l appointmentId "payment_status" paymentStatus))
                (doctors s) (patients s) (loading s)
                (searchTerm s) (statusFilter s) (dateFilter s))).
Proof.
  cbv zeta. destruct w as [b h ts cs [ap ds ps ld q sf df]]; world_norm.
  cbn [appointments doctors patients loading searchTerm statusFilter dateFilter].
  intros E1 E3 ->.
  unfold updatePaymentStatus. rewrite run_bind. cbn [gets component appointments].
  unfold try_catch.
  rewrite run_bind. fold (primary_request appointmentId paymentStatus).
  run_axios E1.
  rewrite run_bind. fold (patch_request appointmentId paymentStatus).
  run_axios E3.
  unfold as_array, array_of, setAppointments. run_plain. reflexivity.
Qed.

(** What the list handler sends: the attempts of a two-shape chain (the
    primary PATCH, then the PATCH with a body; no PUT) and, unless the chain
    is exhausted, the request of the refetch. *)
Lemma list_updatePaymentStatus_sent (w : world state) (appointmentId paymentStatus : value) :
  let chain := [primary_request appointmentId paymentStatus;
                patch_request appointmentId paymentStatus] in
  sent (updatePaymentStatus appointmentId paymentStatus w).2 =
  sent w ++ chain_attempts (backend w) (sent w) chain
         ++ (if chain_exhausted (backend w) (sent w) chain
             then [] else [axios_get "/appointments"]).
Proof.
  cbv zeta. destruct w as [b h ts cs [ap ds ps ld q sf df]]; world_norm.
  unfold updatePaymentStatus. rewrite run_bind. cbn [gets component appointments].
  unfold try_catch, chain_attempts, chain_exhausted.
  rewrite run_bind. fold (primary_request appointmentId paymentStatus).
  destruct (b h (primary_request _ _)) as [x1|d1] eqn:E1; run_axios E1.
  { rewrite run_bind. unfold toast_success, emit_toast. rewrite run_spawn.
    rewrite fetchAppointments_run. world_norm. reflexivity. }
  rewrite run_bind. fold (patch_request appointmentId paymentStatus).
  destruct (b (h ++ [primary_request _ _]) (patch_request _ _)) as [x3|d3] eqn:E3; run_axios E3.
  { rewrite run_bind. unfold toast_success, emit_toast. rewrite run_spawn.
    rewrite fetchAppointments_run. world_norm. reflexivity. }
  unfold as_array, array_of, setAppointments.
  destruct ap; run_plain; rewrite ?app_nil_r; reflexivity.
Qed.

End ListPayment.


(** ** The handlers on sample transports *)

Section HandlerExamples.
Import JS Eff Shapes Samples.

(** A success at the first shape: nothing else is attempted, the refresh
    follows, and the refetched list replaces the local one. *)
Example admin_first_shape_accepted :
  let r := AdminDashboard.updatePaymentStatus (VStr "a1") (VStr "paid")
             (admin_world accept_all [a1]) in
  r.1 = Done tt
  ∧ sent r.2 = primary_request (VStr "a1") (VStr "paid") :: dashboard_requests
  ∧ toasts r.2 = [ToastSuccess "Payment status updated to paid"]
  ∧ AdminDashboard.recentAppointments (component r.2) = PArr [a2].
Proof. vm_compute. repeat split. Qed.

Example list_second_shape_accepted :
  let r := AppointmentsList.updatePaymentStatus (VStr "a1") (VStr "paid")
             (list_world only_patch_body [a2]) in
  r.1 = Done tt
  ∧ sent r.2 = [primary_request (VStr "a1") (VStr "paid");
                patch_request (VStr "a1") (VStr "paid");
                axios_get "/appointments"]
  ∧ toasts r.2 = [ToastSuccess "Payment status updated to paid"]
  ∧ AppointmentsList.appointments (component r.2) = PArr [a1].
Proof. vm_compute. repeat split. Qed.

Example list_status_accepted :
  let r := AppointmentsList.updateAppointmentStatus (VStr "a1") (VStr "completed")
             (list_world accept_all [a1]) in
  sent r.2 = [status_request (VStr "a1") (VStr "completed"); axios_get "/appointments"]
  ∧ toasts r.2 = [ToastSuccess "Appointment completed successfully"]
  ∧ AppointmentsList.appointments (component r.2) = PArr [a2].
Proof. vm_compute. repeat split. Qed.

(** The debug component updates its local list first and whatever the
    backend answers. *)
Lemma debug_update_is_local (w : world PaymentStatusDebug.state)
    (appointmentId newStatus : value) :
  let r := PaymentStatusDebug.updatePaymentStatus appointmentId newStatus w in
  r.1 = Done tt
  ∧ component r.2 = applyLocalStatus (component w) appointmentId "payment_status" newStatus
  ∧ sent r.2 = sent w ++ [primary_request appointmentId newStatus]
  ∧ toasts r.2 = toasts w ++ [ToastSuccess ("Payment status updated to: "
                                            +:+ to_string newStatus)].
Proof.
  cbv zeta. destruct w as [b h ts cs st].
  unfold PaymentStatusDebug.updatePaymentStatus, try_catch.
  fold (primary_request appointmentId newStatus).
  cbv [mbind eff_bind bind gets modify console_log toast_success emit_toast axios send
       settle ret throw backend sent toasts console component fst snd].
  destruct (b h (primary_request appointmentId newStatus)) as [x|d]; cbn; auto.
Qed.

End HandlerExamples.

(** ** C5: the local update *)

Section LocalUpdate.
Import JS.

Lemma applyLocalStatus_lookup (appointments : list obj) appointmentId field value (i : nat) :
  applyLocalStatus appointments appointmentId field value !! i =
  (fun apt => if strict_eq (get apt "id") appointmentId
              then spread_set apt field value else apt) <$> appointments !! i.
Proof. unfold applyLocalStatus. apply list_lookup_fmap. Qed.

Lemma applyLocalStatus_absent (appointments : list obj) appointmentId field value :
  (∀ apt, apt ∈ appointments -> strict_eq (get apt "id") appointmentId = false) ->
  applyLocalStatus appointments appointmentId field value = appointments.
Proof.
  intros H. unfold applyLocalStatus.
  induction appointments as [|apt rest IH]; [reflexivity|]. cbn.
  rewrite (H apt) by apply list_elem_of_here.
  f_equal. apply IH. intros x Hx. apply H. by apply list_elem_of_further.
Qed.

(** C5. For every collection, appointment id, field name and value, and
    every position [i] of the collection holding an appointment [apt]: the
    result of [applyLocalStatus] has the same length and holds at [i] an
    appointment [apt'] such that, when the id of [apt] is the targeted one,
    the named field of [apt'] is the new value and every other field of
    [apt'] is that of [apt], and otherwise [apt'] is [apt]. The result is a
    new list: the argument is a value and is what it was. *)
Theorem applyLocalStatus_frame (appointments : list obj) (appointmentId : value)
    (field : string) (v : value) (i : nat) (apt : obj) :
  appointments !! i = Some apt ->
  length (applyLocalStatus appointments appointmentId field v) = length appointments
  ∧ ∃ apt', applyLocalStatus appointments appointmentId field v !! i = Some apt'
      ∧ (strict_eq (get apt "id") appointmentId = true ->
           get apt' field = v
           ∧ apt' !! field = Some v
           ∧ ∀ other, other ≠ field -> apt' !! other = apt !! other)
      ∧ (strict_eq (get apt "id") appointmentId = false -> apt' = apt).
Proof.
  intros Hi. split.
  { unfold applyLocalStatus. apply length_map. }
  rewrite applyLocalStatus_lookup, Hi. cbn.
  eexists. split; [reflexivity|].
  destruct (strict_eq (get apt "id") appointmentId); split; try discriminate.
  - intros _. unfold get, spread_set. rewrite lookup_insert_eq. repeat split.
    intros other Hne. by rewrite lookup_insert_ne.
  - reflexivity.
Qed.

End LocalUpdate.

Lemma applyLocalStatus_frame_witness :
  [Samples.a1; Samples.a2] !! 0%nat = Some Samples.a1
  ∧ ∃ apt', applyLocalStatus [Samples.a1; Samples.a2] (JS.VStr "a1")
                             "payment_status" (JS.VStr "paid") !! 0%nat = Some apt'
            ∧ JS.get apt' "payment_status" = JS.VStr "paid"
            ∧ JS.get apt' "status" = JS.VStr "scheduled".
Proof.
  split; [reflexivity|].
  destruct (applyLocalStatus_frame [Samples.a1; Samples.a2] (JS.VStr "a1")
              "payment_status" (JS.VStr "paid") 0 Samples.a1 eq_refl)
    as [_ [apt' [Hat [Hhit _]]]].
  exists apt'. split; [exact Hat|].
  destruct (Hhit eq_refl) as [Hfield [_ Hothers]].
  split; [exact Hfield|].
  unfold JS.get. rewrite (Hothers "status") by discriminate. reflexivity.
Defined.

(** ** C1, C2, C10: the payment-status chain *)

Section PaymentChain.
Import JS Eff Shapes.

(** C1, at the admin dashboard. With the one appointment [a1] and a
    transport that rejects everything, [updatePaymentStatus("a1", "paid")]
    of [AdminDashboard] ends normally, has tried the three shapes, has
    applied the local update and acknowledges it as simulated, but before
    that it shows a failure notice: a failure is surfaced. *)
Theorem admin_exhausted_surfaces_failure :
  let w := Samples.admin_world Samples.fail_all [Samples.a1] in
  let r := AdminDashboard.updatePaymentStatus (VStr "a1") (VStr "paid") w in
  r.1 = Done tt
  ∧ sent r.2 = [primary_request (VStr "a1") (VStr "paid");
                put_request (VStr "a1") (VStr "paid");
                patch_request (VStr "a1") (VStr "paid")]
  ∧ toasts r.2 = [ToastError "Failed to update payment status: Server error";
                  ToastSuccess "Payment status updated to paid (demo mode)"]
  ∧ failure_notice (toasts r.2)
  ∧ AdminDashboard.recentAppointments (component r.2)
    = PArr [<["payment_status" := VStr "paid"]> Samples.a1].
Proof.
  cbv zeta.
  rewrite (admin_exhausted_run _ _ _ [Samples.a1] VUndefined VUndefined VUndefined)
    by reflexivity.
  repeat split.
  exists "Failed to update payment status: Server error". apply list_elem_of_here.
Qed.

(** The same input at the appointments list: no failure notice, the
    acknowledgment is the simulated one. *)
Lemma list_exhausted_no_failure (w : world AppointmentsList.state)
    (appointmentId paymentStatus : value) (l : list obj) :
  AppointmentsList.appointments (component w) = PArr l ->
  rejected (backend w (sent w) (primary_request appointmentId paymentStatus)) ->
  rejected (backend w (sent w ++ [primary_request appointmentId paymentStatus])
                      (patch_request appointmentId paymentStatus)) ->
  let r := AppointmentsList.updatePaymentStatus appointmentId paymentStatus w in
  r.1 = Done tt
  ∧ toasts r.2 = toasts w ++
      [ToastSuccess ("Payment status updated to " +:+ to_string paymentStatus
                     +:+ " (demo mode)")]
  ∧ AppointmentsList.appointments (component r.2)
    = PArr (applyLocalStatus l appointmentId "payment_status" paymentStatus).
Proof.
  intros Hl [d1 E1] [d3 E3]. cbv zeta.
  rewrite (list_exhausted_run _ _ _ l d1 d3) by assumption.
  repeat split.
Qed.

(** C10. For every appointment id that no appointment of the local
    collection carries: when every remote attempt of the payment-status
    chain is rejected, the handler of the appointments list and the one of
    the admin dashboard both end normally, leave the component state (the
    local collection with it) as it was, and their last toast is the
    success toast marked [(demo mode)]. *)
Theorem payment_fallback_absent_id
    (wl : world AppointmentsList.state) (wa : world AdminDashboard.state)
    (appointmentId paymentStatus : value) (ll la : list obj) :
  let p1 := primary_request appointmentId paymentStatus in
  let p2 := put_request appointmentId paymentStatus in
  let p3 := patch_request appointmentId paymentStatus in
  let ack := ToastSuccess ("Payment status updated to " +:+ to_string paymentStatus
                           +:+ " (demo mode)") in
  AppointmentsList.appointments (component wl) = PArr ll ->
  AdminDashboard.recentAppointments (component wa) = PArr la ->
  (∀ apt, apt ∈ ll -> strict_eq (get apt "id") appointmentId = false) ->
  (∀ apt, apt ∈ la -> strict_eq (get apt "id") appointmentId = false) ->
  rejected (backend wl (sent wl) p1) ->
  rejected (backend wl (sent wl ++ [p1]) p3) ->
  rejected (backend wa (sent wa) p1) ->
  rejected (backend wa (sent wa ++ [p1]) p2) ->
  rejected (backend wa (sent wa ++ [p1; p2]) p3) ->
  ((AppointmentsList.updatePaymentStatus appointmentId paymentStatus wl).1 = Done tt
   ∧ component (AppointmentsList.updatePaymentStatus appointmentId paymentStatus wl).2
     = component wl
   ∧ toasts (AppointmentsList.updatePaymentStatus appointmentId paymentStatus wl).2
     = toasts wl ++ [ack])
  ∧ ((AdminDashboard.updatePaymentStatus appointmentId paymentStatus wa).1 = Done tt
     ∧ component (AdminDashboard.updatePaymentStatus appointmentId paymentStatus wa).2
       = component wa
     ∧ last (toasts (AdminDashboard.updatePaymentStatus appointmentId paymentStatus wa).2)
       = Some ack).
Proof.
  cbv zeta. intros Hll Hla Habsl Habsa [x1 X1] [x3 X3] [y1 Y1] [y2 Y2] [y3 Y3].
  rewrite (list_exhausted_run _ _ _ ll x1 x3) by assumption.
  rewrite (admin_exhausted_run _ _ _ la y1 y2 y3) by assumption.
  rewrite !applyLocalStatus_absent by assumption.
  cbn [fst snd component toasts].
  repeat split.
  - destruct (component wl); cbn in *. by subst.
  - destruct (component wa); cbn in *. by subst.
  - rewrite last_app. reflexivity.
Qed.

End PaymentChain.

Lemma payment_fallback_absent_id_witness :
  let wl := Samples.list_world Samples.fail_all [Samples.a2] in
  let wa := Samples.admin_world Samples.fail_all [Samples.a2] in
  (∀ apt, apt ∈ [Samples.a2] -> JS.strict_eq (JS.get apt "id") (JS.VStr "a1") = false)
  ∧ Eff.component (AppointmentsList.updatePaymentStatus (JS.VStr "a1") (JS.VStr "paid") wl).2
    = Eff.component wl
  ∧ last (Eff.toasts (AdminDashboard.updatePaymentStatus (JS.VStr "a1") (JS.VStr "paid") wa).2)
    = Some (Eff.ToastSuccess "Payment status updated to paid (demo mode)").
Proof.
  cbv zeta.
  assert (Habs : ∀ apt, apt ∈ [Samples.a2] ->
                        JS.strict_eq (JS.get apt "id") (JS.VStr "a1") = false).
  { intros apt Hin. apply list_elem_of_singleton in Hin. subst apt. reflexivity. }
  split; [exact Habs|].
  destruct (payment_fallback_absent_id
              (Samples.list_world Samples.fail_all [Samples.a2])
              (Samples.admin_world Samples.fail_all [Samples.a2])
              (JS.VStr "a1") (JS.VStr "paid") [Samples.a2] [Samples.a2]
              eq_refl eq_refl Habs Habs
              (ex_intro _ JS.VUndefined eq_refl) (ex_intro _ JS.VUndefined eq_refl)
              (ex_intro _ JS.VUndefined eq_refl) (ex_intro _ JS.VUndefined eq_refl)
              (ex_intro _ JS.VUndefined eq_refl))
    as [[_ [Hl _]] [_ [_ Ha]]].
  split; [exact Hl | exact Ha].
Defined.

Section ChainOrder.
Import JS Eff Shapes.

(** C2 fails at the appointments list. With the one appointment [a1] and
    a transport that rejects the primary PATCH and the PUT and accepts the
    PATCH with a body, [updatePaymentStatus("a1", "paid")] of
    [AppointmentsList] attempts the primary PATCH and the PATCH with a body,
    and never the PUT: its chain has lost the second shape.  On the same
    transport the copy of the handler in [AdminDashboard] attempts the three
    shapes in order. *)
Lemma list_chain_skips_put :
  let w := Samples.list_world Samples.only_patch_body [Samples.a1] in
  let log := sent (AppointmentsList.updatePaymentStatus (VStr "a1") (VStr "paid") w).2 in
  let admin_log :=
    sent (AdminDashboard.updatePaymentStatus (VStr "a1") (VStr "paid")
            (Samples.admin_world Samples.only_patch_body [Samples.a1])).2 in
  mutation_attempts log
  = [primary_request (VStr "a1") (VStr "paid"); patch_request (VStr "a1") (VStr "paid")]
  ∧ mutation_attempts log
    ≠ [primary_request (VStr "a1") (VStr "paid"); put_request (VStr "a1") (VStr "paid");
       patch_request (VStr "a1") (VStr "paid")]
  ∧ (put_request (VStr "a1") (VStr "paid") ∉ log)
  ∧ mutation_attempts admin_log
    = [primary_request (VStr "a1") (VStr "paid"); put_request (VStr "a1") (VStr "paid");
       patch_request (VStr "a1") (VStr "paid")].
Proof.
  cbv zeta. rewrite list_updatePaymentStatus_sent, admin_updatePaymentStatus_sent.
  split; [reflexivity|]. split; [|split].
  - intros H. discriminate H.
  - intros H. cbn in H. apply elem_of_cons in H as [H|H]; [discriminate H|].
    apply elem_of_cons in H as [H|H]; [discriminate H|].
    apply list_elem_of_singleton in H. discriminate H.
  - reflexivity.
Qed.

Lemma chain_rejected_rejected_resolved (b : transport) (h : list request) (p1 p2 p3 : request) :
  rejected (b h p1) -> rejected (b (h ++ [p1]) p2) -> resolved (b (h ++ [p1; p2]) p3) ->
  chain_attempts b h [p1; p2; p3] = [p1; p2; p3]
  ∧ chain_exhausted b h [p1; p2; p3] = false.
Proof.
  intros [d1 E1] [d2 E2] [x3 E3]. cbn.
  rewrite E1, E2, <- app_assoc. cbn. rewrite E3. split; reflexivity.
Qed.

(** The requests of the two handlers, for every appointment id, payment
    status and world.  [AdminDashboard.updatePaymentStatus] sends the
    attempts of the chain of the three shapes (primary PATCH with the query
    parameter, then PUT with the body, then PATCH with the body), which is
    the chain of the specification; [AppointmentsList.updatePaymentStatus]
    sends those of a chain of two shapes (primary PATCH, then PATCH with the
    body).  In both, a shape is attempted only after the previous one was
    rejected and none after one that resolved, and what follows the attempts
    is only the GETs of the refetch that a success starts.  With a transport
    that rejects the first two attempts of the admin chain and resolves the
    third, the attempts are exactly the three shapes in order. *)
Theorem payment_chain_attempts (appointmentId paymentStatus : value) :
  let p1 := primary_request appointmentId paymentStatus in
  let p2 := put_request appointmentId paymentStatus in
  let p3 := patch_request appointmentId paymentStatus in
  (∀ w : world AdminDashboard.state,
     ∃ refetch,
       sent (AdminDashboard.updatePaymentStatus appointmentId paymentStatus w).2
       = sent w ++ chain_attempts (backend w) (sent w) [p1; p2; p3] ++ refetch
       ∧ Forall (fun r => req_method r = GET) refetch
       ∧ (chain_exhausted (backend w) (sent w) [p1; p2; p3] = true -> refetch = []))
  ∧ (∀ w : world AppointmentsList.state,
       ∃ refetch,
         sent (AppointmentsList.updatePaymentStatus appointmentId paymentStatus w).2
         = sent w ++ chain_attempts (backend w) (sent w) [p1; p3] ++ refetch
         ∧ Forall (fun r => req_method r = GET) refetch
         ∧ (chain_exhausted (backend w) (sent w) [p1; p3] = true -> refetch = []))
  ∧ (∀ w : world AdminDashboard.state,
       rejected (backend w (sent w) p1) ->
       rejected (backend w (sent w ++ [p1]) p2) ->
       resolved (backend w (sent w ++ [p1; p2]) p3) ->
       mutation_attempts
         (sent (AdminDashboard.updatePaymentStatus appointmentId paymentStatus w).2)
       = mutation_attempts (sent w) ++ [p1; p2; p3]).
Proof.
  cbv zeta. split; [|split].
  - intros w. rewrite admin_updatePaymentStatus_sent. eexists. split; [reflexivity|].
    destruct (chain_exhausted _ _ _); split; try done.
    repeat constructor.
  - intros w. rewrite list_updatePaymentStatus_sent. eexists. split; [reflexivity|].
    destruct (chain_exhausted _ _ _); split; try done.
    repeat constructor.
  - intros w H1 H2 H3. rewrite admin_updatePaymentStatus_sent.
    destruct (chain_rejected_rejected_resolved _ _ _ _ _ H1 H2 H3) as [-> ->].
    unfold mutation_attempts. rewrite !List.filter_app. reflexivity.
Qed.

End ChainOrder.

Lemma payment_chain_attempts_witness :
  let w := Samples.admin_world Samples.only_patch_body [Samples.a1] in
  Eff.rejected (Eff.backend w (Eff.sent w) (Shapes.primary_request (JS.VStr "a1") (JS.VStr "paid")))
  ∧ mutation_attempts
      (Eff.sent (AdminDashboard.updatePaymentStatus (JS.VStr "a1") (JS.VStr "paid") w).2)
    = [Shapes.primary_request (JS.VStr "a1") (JS.VStr "paid");
       Shapes.put_request (JS.VStr "a1") (JS.VStr "paid");
       Shapes.patch_request (JS.VStr "a1") (JS.VStr "paid")].
Proof.
  cbv zeta. split; [exists JS.VUndefined; reflexivity|].
  exact (proj2 (proj2 (payment_chain_attempts (JS.VStr "a1") (JS.VStr "paid")))
           (Samples.admin_world Samples.only_patch_body [Samples.a1])
           (ex_intro _ JS.VUndefined eq_refl)
           (ex_intro _ JS.VUndefined eq_refl)
           (ex_intro _ (Eff.PObj ∅) eq_refl)).
Defined.

(** ** C3: a refresh with a failing source *)

Section RefreshIsolation.
Import JS Eff.


Lemma list_mount_admin_run (w : world AppointmentsList.state) :
  let s := component w in
  AppointmentsList.mount "admin" w =
  (Done tt,
   World (backend w)
         (sent w ++ [axios_get "/appointments"; axios_get "/users/doctors";
                     axios_get "/users/patients"])
         (toasts w ++ notice_if_rejected (list_appointments_response w)
                        (ToastError "Failed to load appointments"))
         (console w ++ log_if_rejected (list_doctors_response w) "Failed to load doctors"
                    ++ log_if_rejected (list_patients_response w) "Failed to load patients")
         (AppointmentsList.State
            (fetched (list_appointments_response w) (AppointmentsList.appointments s))
            (fetched (list_doctors_response w) (AppointmentsList.doctors s))
            (fetched (list_patients_response w) (AppointmentsList.patients s))
            false
            (AppointmentsList.searchTerm s) (AppointmentsList.statusFilter s)
            (AppointmentsList.dateFilter s))).
Proof.
  cbv zeta. unfold AppointmentsList.mount, list_appointments_response,
    list_doctors_response, list_patients_response.
  rewrite run_bind, run_spawn, fetchAppointments_run. world_norm.
  rewrite bool_decide_eq_true_2 by reflexivity.
  rewrite run_bind, run_spawn, fetchDoctors_run. world_norm.
  rewrite run_spawn, fetchPatients_run. world_norm.
  cbn [AppointmentsList.appointments AppointmentsList.doctors AppointmentsList.patients
       AppointmentsList.loading AppointmentsList.searchTerm AppointmentsList.statusFilter
       AppointmentsList.dateFilter].
  reflexivity.
Qed.


End RefreshIsolation.


(** ** C9: the real-time refresh timer *)

Section Timer.
Import Reports.

Lemma timer_invariant_initial : timer_invariant initial_state.
Proof. reflexivity. Qed.

Lemma rerun_invariant (s : state) :
  mounted s = true ->
  (match cleanup s with
   | Some (Some h) => timers s = {[h := 30000]}
   | Some None => timers s = ∅
   | None => False
   end) ->
  timer_invariant (rerun s).
Proof.
  intros Hm Hc. destruct s as [m rt tr ty c tm nh ar]; cbn in *. subst m.
  unfold rerun, run_effect, run_cleanup, timer_invariant; cbn.
  destruct c as [[h|]|]; [| |done]; subst tm; destruct rt; cbn;
    rewrite ?delete_singleton_eq; split; try reflexivity;
    apply insert_empty.
Qed.

Lemma step_invariant (s s' : state) (e : event) :
  timer_invariant s -> step s e = Some s' -> timer_invariant s'.
Proof.
  intros Hinv Hstep. destruct e; cbn in Hstep.
  - (* Mount *)
    destruct s as [m rt tr ty c tm nh ar]; cbn in *.
    destruct m; [discriminate|]. injection Hstep as <-.
    unfold timer_invariant in *; cbn in *. destruct c; [done|]. done.
  - (* ToggleRealTimeMode *)
    destruct (mounted s) eqn:Hm; [|discriminate]. injection Hstep as <-.
    apply rerun_invariant; [reflexivity|]. cbn.
    unfold timer_invariant in Hinv. rewrite Hm in Hinv.
    destruct (cleanup s) as [[h|]|]; tauto.
  - (* SetSelectedTimeRange *)
    destruct (mounted s) eqn:Hm; [|discriminate].
    case_bool_decide; injection Hstep as <-; [assumption|].
    apply rerun_invariant; [reflexivity|]. cbn.
    unfold timer_invariant in Hinv. rewrite Hm in Hinv.
    destruct (cleanup s) as [[h|]|]; tauto.
  - (* SetReportType *)
    destruct (mounted s) eqn:Hm; [|discriminate].
    case_bool_decide; injection Hstep as <-; [assumption|].
    apply rerun_invariant; [reflexivity|]. cbn.
    unfold timer_invariant in Hinv. rewrite Hm in Hinv.
    destruct (cleanup s) as [[h|]|]; tauto.
  - (* Tick *)
    destruct (timers s !! handle); [|discriminate]. injection Hstep as <-.
    exact Hinv.
  - (* Unmount *)
    destruct s as [m rt tr ty c tm nh ar]; cbn in *.
    destruct m; [|discriminate]. injection Hstep as <-.
    unfold timer_invariant, run_cleanup in *; cbn in *.
    destruct c as [[h|]|]; cbn; [| |done].
    + destruct Hinv as [_ ->]. apply delete_singleton_eq.
    + tauto.
Qed.

Lemma run_invariant (es : list event) (s s' : state) :
  timer_invariant s -> run s es = Some s' -> timer_invariant s'.
Proof.
  revert s. induction es as [|e es IH]; intros s Hinv Hrun; cbn in Hrun.
  - by injection Hrun as <-.
  - destruct (step s e) as [s1|] eqn:Hstep; [|discriminate]. cbn in Hrun.
    eapply IH; [|exact Hrun]. eapply step_invariant; eassumption.
Qed.

(** C9. After every sequence of mounts, toggles of real-time mode, changes
    of the time range or the report type, timer ticks and unmounts: while
    the component is mounted with real-time mode on, exactly one interval
    is active, its period is 30000 ms and its tick calls the refresh; when
    real-time mode is off or the component is unmounted, no interval is
    active and no tick can happen. *)
Theorem realtime_timer_cancelled (es : list event) (s : state) :
  run initial_state es = Some s ->
  (mounted s = true ∧ realTimeMode s = true ->
     ∃ h, timers s = {[h := 30000]}
          ∧ ∃ s', step s (Tick h) = Some s'
                  ∧ auto_refreshes s' = Datatypes.S (auto_refreshes s))
  ∧ (mounted s = false ∨ realTimeMode s = false ->
       timers s = ∅ ∧ ∀ h, step s (Tick h) = None).
Proof.
  intros Hrun.
  pose proof (run_invariant es _ _ timer_invariant_initial Hrun) as Hinv.
  unfold timer_invariant in Hinv. split.
  - intros [Hm Hrt]. rewrite Hm in Hinv.
    destruct (cleanup s) as [[h|]|]; [| |done].
    + destruct Hinv as [_ Ht]. exists h. split; [exact Ht|].
      cbn. rewrite Ht, lookup_singleton_eq. eexists. split; reflexivity.
    + destruct Hinv as [Hoff _]. congruence.
  - intros Hoff.
    assert (Ht : timers s = ∅).
    { destruct (mounted s) eqn:Hm.
      - destruct Hoff as [?|Hrt]; [discriminate|].
        destruct (cleanup s) as [[h|]|]; [|tauto|done].
        destruct Hinv as [Hon _]. congruence.
      - destruct (cleanup s); [done|assumption]. }
    split; [exact Ht|]. intros h. cbn. rewrite Ht, lookup_empty. reflexivity.
Qed.

End Timer.

Lemma realtime_timer_cancelled_witness :
  let es := [Reports.Mount; Reports.ToggleRealTimeMode; Reports.Tick 1;
             Reports.ToggleRealTimeMode] in
  ∃ s, Reports.run Reports.initial_state es = Some s
       ∧ Reports.auto_refreshes s = 1%nat
       ∧ Reports.timers s = ∅
       ∧ ∀ h, Reports.step s (Reports.Tick h) = None.
Proof.
  cbv zeta. eexists. split; [reflexivity|]. split; [reflexivity|].
  refine (proj2 (realtime_timer_cancelled
                   [Reports.Mount; Reports.ToggleRealTimeMode; Reports.Tick 1;
                    Reports.ToggleRealTimeMode] _ _) _).
  - reflexivity.
  - right. reflexivity.
Defined.

(** ** C7: what is displayed for a missing or unrecognized status *)

Section Badges.
Import JS.

Lemma lookup_literal_absent {A} (own : list (string * A)) (key : value) :
  to_string key ∉ own.*1 -> to_string key ∉ Object_prototype_names ->
  lookup_literal own key = Absent.
Proof.
  intros Hown Hproto. unfold lookup_literal.
  destruct (list_find _ own) as [[i [k a]]|] eqn:Hfind.
  - apply list_find_Some in Hfind as (Hi & Hk & _). cbn in Hk. exfalso. apply Hown.
    rewrite <- Hk. apply list_elem_of_fmap. exists (k, a). split; [reflexivity|].
    eapply list_elem_of_lookup_2. exact Hi.
  - by rewrite bool_decide_eq_false_2.
Qed.

Lemma lookup_literal_missing {A} (own : list (string * A)) (key : value) :
  missing key -> "undefined" ∉ own.*1 -> "null" ∉ own.*1 ->
  lookup_literal own key = Absent.
Proof.
  intros [->| ->] Hu Hn; apply lookup_literal_absent; cbn; try assumption;
    unfold Object_prototype_names; intros H;
    repeat (apply elem_of_cons in H as [H|H]; [discriminate H|]);
    by apply elem_of_nil in H.
Qed.

(** C7 as stated fails: an unrecognized payment status is shown by its own
    capitalised text in the neutral gray style, not as [pending]; an
    unrecognized lifecycle status keeps its own text; and the current-status
    line of the admin dashboard prints the unrecognized value. *)
Lemma unrecognized_status_shown_as_is :
  AppointmentsList.getPaymentBadge (VStr "refunded")
  = Some (AppointmentsList.Badge neutral_class None (VStr "Refunded"))
  ∧ AppointmentsList.getPaymentBadge (VStr "refunded")
    ≠ AppointmentsList.getPaymentBadge (VStr "pending")
  ∧ AdminDashboard.getPaymentStatusBadge (VStr "refunded")
    = Some (AdminDashboard.Badge neutral_class (VStr "Refunded"))
  ∧ AdminDashboard.currentPaymentStatus {[ "id" := VStr "a1"; "payment_status" := VStr "refunded" ]}
    = VStr "refunded"
  ∧ AppointmentsList.badge_text <$> AppointmentsList.getStatusBadge (VStr "rescheduled")
    = Some (VStr "Rescheduled")
  ∧ unrecognized payment_vocabulary (VStr "refunded")
  ∧ unrecognized lifecycle_vocabulary (VStr "rescheduled").
Proof.
  repeat split; try reflexivity; try discriminate;
    eexists; (split; [reflexivity|]); split; intros H;
    repeat (apply elem_of_cons in H as [H|H]; [discriminate H|]);
    by apply elem_of_nil in H.
Qed.

(** C7, amended. For every lifecycle status that is missing or
    unrecognized, the status badge of the appointments list has the style
    (classes and icon) of [pending]. For every payment status that is
    missing or the empty string, the payment badge of the appointments list
    shows the text [Pending] and the current-status line of the admin
    dashboard shows [pending]. The text of an unrecognized non-empty status
    or payment status is the capitalised status itself. *)
Theorem status_display_fallback :
  (∀ status, missing status ∨ unrecognized lifecycle_vocabulary status ->
     ∃ text, AppointmentsList.getStatusBadge status
             = Some (AppointmentsList.Badge pending_style.1 pending_style.2 text))
  ∧ (∀ paymentStatus, missing paymentStatus ∨ paymentStatus = VStr "" ->
       AppointmentsList.getPaymentBadge paymentStatus
       = Some (AppointmentsList.Badge neutral_class None (VStr "Pending"))
       ∧ ∀ appointment, get appointment "payment_status" = paymentStatus ->
           AdminDashboard.currentPaymentStatus appointment = VStr "pending")
  ∧ (∀ s, s ≠ "" ->
       capitalised (VStr s) = Some (VStr (toUpperCase (charAt0 s) +:+ slice1 s))
       ∧ (unrecognized lifecycle_vocabulary (VStr s) ->
            AppointmentsList.badge_text <$> AppointmentsList.getStatusBadge (VStr s)
            = Some (VStr (toUpperCase (charAt0 s) +:+ slice1 s)))
       ∧ (unrecognized payment_vocabulary (VStr s) ->
            AppointmentsList.getPaymentBadge (VStr s)
            = Some (AppointmentsList.Badge neutral_class None
                      (VStr (toUpperCase (charAt0 s) +:+ slice1 s))))).
Proof.
  split; [|split].
  - intros status Hs. unfold AppointmentsList.getStatusBadge.
    assert (Habs : lookup_literal AppointmentsList.statusConfig status = Absent).
    { destruct Hs as [Hm|(s & -> & Hv & Hp)].
      - apply lookup_literal_missing; [exact Hm| |]; cbn; intros H;
          repeat (apply elem_of_cons in H as [H|H]; [discriminate H|]);
          by apply elem_of_nil in H.
      - apply lookup_literal_absent; assumption. }
    rewrite Habs. cbn.
    destruct Hs as [[->| ->]|(s & -> & _)]; cbn; eexists; reflexivity.
  - intros ps Hps. split.
    + destruct Hps as [[->| ->]| ->]; reflexivity.
    + intros appointment <-. unfold AdminDashboard.currentPaymentStatus.
      destruct Hps as [[->| ->]| ->]; reflexivity.
  - intros s Hne. split; [reflexivity|]. split.
    + intros (s' & [= <-] & Hv & Hp). unfold AppointmentsList.getStatusBadge.
      rewrite lookup_literal_absent by assumption. reflexivity.
    + intros (s' & [= <-] & Hv & Hp).
      unfold AppointmentsList.getPaymentBadge, AppointmentsList.payment_class.
      rewrite lookup_literal_absent by assumption. cbn.
      unfold or_else. cbn.
      destruct s as [|c r]; [done|]. reflexivity.
Qed.

End Badges.

Lemma status_display_fallback_witness :
  (missing JS.VUndefined ∨ unrecognized lifecycle_vocabulary JS.VUndefined)
  ∧ ∃ text, AppointmentsList.getStatusBadge JS.VUndefined
            = Some (AppointmentsList.Badge pending_style.1 pending_style.2 text).
Proof.
  split; [left; left; reflexivity|].
  exact (proj1 status_display_fallback JS.VUndefined (or_introl (or_introl eq_refl))).
Defined.

(** ** Strings *)

Section Strings.
Import JS.

Lemma startsWith_spec (s p : string) :
  startsWith s p = true ↔ ∃ post, s = p +:+ post.
Proof.
  revert s. induction p as [|a p IH]; intros s; cbn.
  - split; [intros _; by exists s | done].
  - destruct s as [|b s]; cbn.
    + split; [done | intros [post H]; discriminate H].
    + rewrite andb_true_iff, bool_decide_eq_true, IH. split.
      * intros [-> [post ->]]. by exists post.
      * intros [post [= -> ->]]. split; [done | by exists post].
Qed.

Lemma includes_spec (s t : string) :
  includes s t = true ↔ ∃ pre post, s = pre +:+ t +:+ post.
Proof.
  induction s as [|c s IH]; cbn.
  - rewrite orb_false_r. rewrite startsWith_spec. split.
    + intros [post H]. exists "", post. exact H.
    + intros (pre & post & H). destruct pre; [by exists post | discriminate H].
  - rewrite orb_true_iff, startsWith_spec, IH. split.
    + intros [[post H] | (pre & post & H)].
      * exists "", post. exact H.
      * exists (String c pre), post. cbn. by rewrite H.
    + intros (pre & post & H). destruct pre as [|c' pre]; cbn in H.
      * left. by exists post.
      * right. injection H as -> ->. by exists pre, post.
Qed.

Lemma includes_empty (s : string) : includes s "" = true.
Proof. destruct s; reflexivity. Qed.

End Strings.

(** ** Dates *)

Section Dates.
Import JSDate.

Lemma civil_from_days_bounds (z : Z) :
  1 <= (civil_from_days z).1.2 <= 12.
Proof.
  unfold civil_from_days. cbn [fst snd].
  set (z' := z + 719468). set (era := z' / 146097).
  set (doe := z' - era * 146097).
  assert (Hdoe : 0 <= doe < 146097).
  { subst doe era. pose proof (Z.mod_pos_bound z' 146097 ltac:(lia)) as H.
    rewrite Z.mod_eq in H by lia. lia. }
  clearbody doe.
  set (yoe := (doe - doe / 1460 + doe / 36524 - doe / 146096) / 365).
  set (doy := doe - (365 * yoe + yoe / 4 - yoe / 100)).
  assert (Hdoy : 0 <= doy <= 366).
  { subst doy yoe. Z.to_euclidean_division_equations; lia. }
  clearbody doy.
  set (mp := (5 * doy + 2) / 153).
  assert (Hmp : 0 <= mp <= 11).
  { subst mp. Z.to_euclidean_division_equations; lia. }
  clearbody mp.
  destruct (Z.ltb_spec mp 10); lia.
Qed.

(** A day number is the day number of its civil date. *)
Lemma days_from_civil_from_days (z : Z) :
  days_from_civil (civil_from_days z).1.1 (civil_from_days z).1.2 (civil_from_days z).2 = z.
Proof.
  unfold civil_from_days, days_from_civil. cbn [fst snd].
  set (z' := z + 719468). set (era := z' / 146097).
  set (doe := z' - era * 146097).
  assert (Hdoe : 0 <= doe < 146097).
  { subst doe era. pose proof (Z.mod_pos_bound z' 146097 ltac:(lia)) as H.
    rewrite Z.mod_eq in H by lia. lia. }
  assert (Hz : z = era * 146097 + doe - 719468) by (subst doe z'; lia).
  clearbody doe era.
  set (yoe := (doe - doe / 1460 + doe / 36524 - doe / 146096) / 365).
  assert (Hyoe : 0 <= yoe < 400).
  { subst yoe. split; [apply Z.div_pos; [|lia] | apply Z.div_lt_upper_bound; [lia|]];
      Z.to_euclidean_division_equations; lia. }
  set (doy := doe - (365 * yoe + yoe / 4 - yoe / 100)).
  assert (Hdoy : 0 <= doy <= 366).
  { subst doy yoe. Z.to_euclidean_division_equations; lia. }
  assert (Hdoe' : doe = yoe * 365 + yoe / 4 - yoe / 100 + doy) by (subst doy; lia).
  clearbody doy. clearbody yoe.
  set (mp := (5 * doy + 2) / 153).
  assert (Hmp : 0 <= mp <= 11).
  { subst mp. Z.to_euclidean_division_equations; lia. }
  clearbody mp.
  set (m := if mp <? 10 then mp + 3 else mp - 9).
  assert (Hm : (if 2 <? m then m - 3 else m + 9) = mp).
  { subst m. destruct (Z.ltb_spec mp 10);
      [destruct (Z.ltb_spec 2 (mp + 3)) | destruct (Z.ltb_spec 2 (mp - 9))]; lia. }
  rewrite Hm.
  assert (Hy : (if m <=? 2 then yoe + era * 400 + (if m <=? 2 then 1 else 0) - 1
                else yoe + era * 400 + (if m <=? 2 then 1 else 0)) = yoe + era * 400).
  { destruct (m <=? 2); lia. }
  rewrite Hy.
  assert (He : (yoe + era * 400) / 400 = era).
  { rewrite Z.div_add by lia. rewrite Z.div_small by lia. lia. }
  rewrite He. replace (yoe + era * 400 - era * 400) with yoe by lia. lia.
Qed.

Lemma civil_from_days_inj (a b : Z) : civil_from_days a = civil_from_days b -> a = b.
Proof.
  intros H. rewrite <- (days_from_civil_from_days a), <- (days_from_civil_from_days b).
  by rewrite H.
Qed.

Lemma days_from_civil_day (y m d : Z) :
  days_from_civil y m d = days_from_civil y m 1 + d - 1.
Proof. unfold days_from_civil. cbv zeta. lia. Qed.

Lemma Day_setHours0 (t : Z) : Day (setHours0 t) = Day t.
Proof.
  unfold setHours0, MakeDate, Day, msPerDay. rewrite Z.add_0_r.
  apply Z.div_mul. lia.
Qed.

Lemma TimeWithinDay_setHours0 (t : Z) : TimeWithinDay (setHours0 t) = 0.
Proof.
  unfold setHours0, MakeDate, TimeWithinDay, msPerDay. rewrite Z.add_0_r.
  apply Z.mod_mul. lia.
Qed.

(** [setHours(0, 0, 0, 0)] is the start of the day of [t]. *)
Lemma setHours0_start (t : Z) : setHours0 t = Day t * msPerDay.
Proof. unfold setHours0, MakeDate. lia. Qed.

Lemma setHours0_le (t : Z) : setHours0 t <= t < setHours0 t + msPerDay.
Proof.
  rewrite setHours0_start. unfold Day, msPerDay.
  Z.to_euclidean_division_equations; lia.
Qed.

(** [setDate(getDate() + 7)] on a start of day is seven days later. *)
Lemma setDate_plus_7 (t : Z) :
  setDate (setHours0 t) (getDate (setHours0 t) + 7) = setHours0 t + 7 * msPerDay.
Proof.
  unfold setDate, getDate, getFullYear, getMonth.
  rewrite TimeWithinDay_setHours0, Day_setHours0.
  pose proof (civil_from_days_bounds (Day t)) as Hm.
  pose proof (days_from_civil_from_days (Day t)) as Hr.
  destruct (civil_from_days (Day t)) as [[y m] d]. cbn [fst snd] in *.
  unfold MakeDay, MakeDate.
  rewrite Z.div_small, Z.mod_small by lia.
  replace (y + 0) with y by lia. replace (m - 1 + 1) with m by lia.
  rewrite days_from_civil_day in Hr. rewrite setHours0_start. lia.
Qed.

Lemma setMonth_plus_1 (t : Z) :
  setMonth (setHours0 t) (getMonth (setHours0 t) + 1) = one_month_after t.
Proof.
  unfold setMonth, getDate, getFullYear, getMonth, one_month_after.
  rewrite TimeWithinDay_setHours0, Day_setHours0.
  pose proof (civil_from_days_bounds (Day t)) as Hm.
  destruct (civil_from_days (Day t)) as [[y m] d]. cbn [fst snd] in *.
  unfold MakeDay, MakeDate. replace (m - 1 + 1) with m by lia.
  destruct (Z.eqb_spec m 12) as [->|Hne].
  - change (12 / 12) with 1. change (12 mod 12 + 1) with 1. lia.
  - rewrite Z.div_small, Z.mod_small by lia. replace (y + 0) with y by lia. lia.
Qed.

(** Two valid dates print the same date string exactly when they fall on
    the same day. *)
Lemma toDateString_same_day (a b : Z) :
  toDateString (Some a) = toDateString (Some b) ↔ Day a = Day b.
Proof.
  split; [|by unfold toDateString, getDay, getMonth, getDate, getFullYear; intros ->].
  unfold toDateString, getMonth, getDate, getFullYear. intros H.
  apply civil_from_days_inj.
  destruct (civil_from_days (Day a)) as [[ya ma] da],
    (civil_from_days (Day b)) as [[yb mb] db]; cbn [fst snd] in H.
  injection H as _ Hm Hd Hy. f_equal; [f_equal|]; lia.
Qed.

End Dates.

(** ** C6 and C8: the filtered list *)

Section Visible.
Import JS Eff JSDate AppointmentsList.

Variable Date_parse : string -> time.
Variable now : Z.
Variable s : state.

(** *** The code against the rules *)

Ltac date_rule_cases :=
  unfold date_rule; split;
  [ intros [?|(t & Ht & [[? ?]|[[? ?]|[[? ?]|[? ?]]]])]; try congruence; eauto
  | intros (t & Ht & ?); right; exists t; split; [exact Ht|]; tauto ].

Lemma date_rule_today (appointment : obj) :
  dateFilter s = "today" ->
  date_rule Date_parse now s appointment ↔ ∃ t, appointment_time Date_parse appointment = Some t ∧ Day t = Day now.
Proof. intros Hf. date_rule_cases. Qed.

Lemma date_rule_week (appointment : obj) :
  dateFilter s = "week" ->
  date_rule Date_parse now s appointment
  ↔ ∃ t, appointment_time Date_parse appointment = Some t
         ∧ start_of_today now <= t <= start_of_today now + 7 * msPerDay.
Proof. intros Hf. date_rule_cases. Qed.

Lemma date_rule_month (appointment : obj) :
  dateFilter s = "month" ->
  date_rule Date_parse now s appointment
  ↔ ∃ t, appointment_time Date_parse appointment = Some t
         ∧ start_of_today now <= t <= one_month_after now.
Proof. intros Hf. date_rule_cases. Qed.

Lemma date_rule_past (appointment : obj) :
  dateFilter s = "past" ->
  date_rule Date_parse now s appointment
  ↔ ∃ t, appointment_time Date_parse appointment = Some t ∧ t < start_of_today now.
Proof. intros Hf. date_rule_cases. Qed.

Lemma matchesDate_spec (appointment : obj) :
  dateFilter s ∈ date_filters ->
  matchesDate Date_parse now s appointment = true ↔ date_rule Date_parse now s appointment.
Proof.
  intros Hin. unfold matchesDate.
  rewrite setDate_plus_7, setMonth_plus_1, setHours0_start.
  fold (start_of_today now). fold (appointment_time Date_parse appointment).
  case_bool_decide as Hall.
  { split; [intros _; by left | done]. }
  case_bool_decide as Htoday.
  { rewrite (date_rule_today _ Htoday), bool_decide_eq_true.
    destruct (appointment_time Date_parse appointment) as [t|].
    - rewrite toDateString_same_day. unfold start_of_today.
      rewrite <- setHours0_start, Day_setHours0. split.
      + intros H. by exists t.
      + by intros (t' & [= <-] & H).
    - split; [discriminate | by intros (t' & [=] & _)]. }
  case_bool_decide as Hweek.
  { rewrite (date_rule_week _ Hweek).
    destruct (appointment_time Date_parse appointment) as [t|]; unfold ge, le, cmp.
    - rewrite andb_true_iff, Z.geb_le, Z.leb_le. split.
      + intros H. by exists t.
      + by intros (t' & [= <-] & H).
    - split; [discriminate | by intros (t' & [=] & _)]. }
  case_bool_decide as Hmonth.
  { rewrite (date_rule_month _ Hmonth).
    destruct (appointment_time Date_parse appointment) as [t|]; unfold ge, le, cmp.
    - rewrite andb_true_iff, Z.geb_le, Z.leb_le. split.
      + intros H. by exists t.
      + by intros (t' & [= <-] & H).
    - split; [discriminate | by intros (t' & [=] & _)]. }
  case_bool_decide as Hpast.
  { rewrite (date_rule_past _ Hpast).
    destruct (appointment_time Date_parse appointment) as [t|]; unfold lt, cmp.
    - rewrite Z.ltb_lt. split.
      + intros H. by exists t.
      + by intros (t' & [= <-] & H).
    - split; [discriminate | by intros (t' & [=] & _)]. }
  exfalso. unfold date_filters in Hin.
  repeat (apply elem_of_cons in Hin as [Hin|Hin]; [congruence|]).
  by apply elem_of_nil in Hin.
Qed.

Lemma getUserName_string (userId : value) (type : string) :
  names_are_strings s -> ∃ text, getUserName s userId type = Some (VStr text).
Proof.
  intros (ds & ps & Hd & Hp & Fd & Fp). unfold getUserName.
  assert (Hlist : ∃ users, (if bool_decide (type = "doctor") then doctors s else patients s)
                           = PArr users ∧ Forall has_name users).
  { case_bool_decide; eauto. }
  destruct Hlist as (users & -> & Hnames). cbn.
  destruct (list_find _ users) as [[i u]|] eqn:Hfind; [|eauto].
  apply list_find_Some in Hfind as (Hi & _ & _).
  rewrite Forall_forall in Hnames.
  destruct (Hnames u) as [n Hn]; [eapply list_elem_of_lookup_2; exact Hi|].
  exists n. by rewrite Hn.
Qed.

Lemma ci_substring_includes (term text : string) :
  includes (toLowerCase text) (toLowerCase term) = true ↔ ci_substring term text.
Proof. apply includes_spec. Qed.

Lemma matchesSearch_spec (appointment : obj) :
  names_are_strings s -> notes_ok appointment ->
  ∃ b, matchesSearch s appointment = Some b ∧ (b = true ↔ search_rule s appointment).
Proof.
  intros Hnames Hnotes.
  destruct (getUserName_string (get appointment "doctor_id") "doctor" Hnames) as [dn Hdn].
  destruct (getUserName_string (get appointment "patient_id") "patient" Hnames) as [pn Hpn].
  unfold matchesSearch, search_rule, searched_text. rewrite Hdn, Hpn. cbn.
  destruct (includes (toLowerCase dn) _) eqn:Ed.
  { exists true. split; [reflexivity|]. split; [intros _ | reflexivity].
    exists dn. split; [by left | by apply ci_substring_includes]. }
  destruct (includes (toLowerCase pn) _) eqn:Ep.
  { exists true. split; [reflexivity|]. split; [intros _ | reflexivity].
    exists pn. split; [right; by left | by apply ci_substring_includes]. }
  assert (Hnames_no : ∀ text,
            Some (VStr dn) = Some (VStr text) ∨ Some (VStr pn) = Some (VStr text) ->
            ¬ ci_substring (searchTerm s) text).
  { intros text Heq Hsub; apply ci_substring_includes in Hsub;
    destruct Heq as [Heq|Heq]; injection Heq as <-; congruence. }
  destruct Hnotes as [Hn|[Hn|[n Hn]]]; rewrite Hn.
  - exists false. split; [reflexivity|]. split; [discriminate|].
    intros (text & [H|[H|H]] & Hsub); [| |discriminate H];
      exfalso; apply (Hnames_no text); auto.
  - exists false. split; [reflexivity|]. split; [discriminate|].
    intros (text & [H|[H|H]] & Hsub); [| |discriminate H];
      exfalso; apply (Hnames_no text); auto.
  - cbn. eexists. split; [reflexivity|]. rewrite ci_substring_includes. split.
    + intros Hsub. exists n. split; [right; by right | exact Hsub].
    + intros (text & [H|[H|H]] & Hsub).
      * exfalso. apply (Hnames_no text); auto.
      * exfalso. apply (Hnames_no text); auto.
      * by injection H as <-.
Qed.

Lemma matchesStatus_spec (appointment : obj) :
  matchesStatus s appointment = true ↔ status_rule s appointment.
Proof.
  unfold matchesStatus, status_rule, strict_eq.
  rewrite orb_true_iff, bool_decide_eq_true.
  destruct (get appointment "status"); rewrite ?bool_decide_eq_true;
    split; intros [?|H]; auto; discriminate H.
Qed.

Lemma keeps_spec (appointment : obj) :
  names_are_strings s -> notes_ok appointment -> dateFilter s ∈ date_filters ->
  ∃ b, keeps Date_parse now s appointment = Some b ∧ (b = true ↔ visible Date_parse now s appointment).
Proof.
  intros Hnames Hnotes Hdate.
  destruct (matchesSearch_spec appointment Hnames Hnotes) as (b & Hb & Hiff).
  unfold keeps, visible. rewrite Hb. cbn. eexists. split; [reflexivity|].
  rewrite !andb_true_iff, Hiff, matchesStatus_spec, matchesDate_spec by exact Hdate.
  tauto.
Qed.

Lemma filter_throwing_selects {A} (f : A -> option bool) (P : A -> Prop) (l : list A) :
  Forall (fun a => ∃ b, f a = Some b ∧ (b = true ↔ P a)) l ->
  ∃ r, filter_throwing f l = Some r ∧ selects P l r.
Proof.
  induction 1 as [|a l (b & Hb & Hiff) _ (r & Hr & Hsel)]; cbn.
  - exists []. split; [reflexivity | constructor].
  - rewrite Hb, Hr. cbn. destruct b.
    + exists (a :: r). split; [reflexivity|]. constructor; [by apply Hiff | exact Hsel].
    + exists r. split; [reflexivity|]. apply selects_drop; [|exact Hsel].
      intros HP. apply Hiff in HP. discriminate HP.
Qed.

Lemma selects_sublist {A} (P : A -> Prop) (l r : list A) :
  selects P l r -> sublist r l.
Proof. induction 1; by constructor. Qed.

Lemma selects_elem_of {A} (P : A -> Prop) (l r : list A) (x : A) :
  selects P l r -> x ∈ r ↔ x ∈ l ∧ P x.
Proof.
  induction 1 as [|y l r HP _ IH|y l r HP _ IH].
  - split; [intros H | intros [H _]]; by apply elem_of_nil in H.
  - rewrite !elem_of_cons, IH. split.
    + intros [->|[? ?]]; auto.
    + intros [[->|?] ?]; auto.
  - rewrite elem_of_cons, IH. split.
    + intros [? ?]; auto.
    + intros [[->|?] ?]; [contradiction | auto].
Qed.

End Visible.

Section FilteredList.
Import JS Eff JSDate AppointmentsList.

Lemma search_rule_empty_term (s : state) (appointment : obj) :
  names_are_strings s -> searchTerm s = "" -> search_rule s appointment.
Proof.
  intros Hnames Hterm.
  destruct (getUserName_string s (get appointment "doctor_id") "doctor" Hnames) as [dn Hdn].
  exists dn. split; [by left|]. rewrite Hterm. by exists "", (toLowerCase dn).
Qed.

Lemma getFilteredAppointments_selects Date_parse now (s : state) (l : list obj) :
  appointments s = PArr l -> names_are_strings s -> Forall (notes_ok) l ->
  dateFilter s ∈ date_filters ->
  ∃ r, getFilteredAppointments Date_parse now s = Some r
       ∧ selects (visible Date_parse now s) l r.
Proof.
  intros Hl Hnames Hnotes Hdate. unfold getFilteredAppointments. rewrite Hl. cbn.
  apply filter_throwing_selects.
  eapply Forall_impl; [exact Hnotes|]. intros a Ha. by apply keeps_spec.
Qed.


Lemma selects_filter {A} (P : A -> Prop) (f : A -> bool) (l r : list A) :
  (∀ a, a ∈ l -> f a = true ↔ P a) -> selects P l r -> r = List.filter f l.
Proof.
  intros Hf Hsel. induction Hsel as [|x l r HP _ IH|x l r HP _ IH]; cbn.
  - reflexivity.
  - rewrite (proj2 (Hf x (list_elem_of_here _ _)) HP). f_equal.
    apply IH. intros a Ha. apply Hf. by apply list_elem_of_further.
  - destruct (f x) eqn:E.
    + exfalso. apply HP, Hf; [apply list_elem_of_here | exact E].
    + apply IH. intros a Ha. apply Hf. by apply list_elem_of_further.
Qed.

Lemma count_where_all (field expected : string) (l : list obj) :
  Forall (fun a => get a field = VStr expected) l ->
  count_where field expected l = length l
  ∧ ∀ other, other ≠ expected -> count_where field other l = 0%nat.
Proof.
  unfold count_where. induction 1 as [|a l Ha _ [IH1 IH2]]; cbn.
  - split; [reflexivity | intros; reflexivity].
  - rewrite Ha. unfold strict_eq at 1. rewrite bool_decide_eq_true_2 by reflexivity.
    cbn. rewrite IH1. split; [reflexivity|].
    intros other Hne. unfold strict_eq at 1.
    rewrite bool_decide_eq_false_2 by congruence. by apply IH2.
Qed.


End FilteredList.

Section FilteredListExamples.
Import JS Eff AppointmentsList Samples.

Example sample_now_parsed : JSDate.parse "2026-11-01T10:30:00" = Some sample_now.
Proof. reflexivity. Qed.

Example filtered_today :
  getFilteredAppointments JSDate.parse sample_now (view_state "" "all" "today") = Some [b1].
Proof. vm_compute. reflexivity. Qed.

Example filtered_week :
  getFilteredAppointments JSDate.parse sample_now (view_state "" "all" "week") = Some [b1; b3].
Proof. vm_compute. reflexivity. Qed.

Example filtered_past :
  getFilteredAppointments JSDate.parse sample_now (view_state "" "all" "past") = Some [b2].
Proof. vm_compute. reflexivity. Qed.

Example filtered_search :
  getFilteredAppointments JSDate.parse sample_now (view_state "smith" "all" "all")
  = Some [b1; b2; b3].
Proof. vm_compute. reflexivity. Qed.

Example filtered_search_patient :
  getFilteredAppointments JSDate.parse sample_now (view_state "JONES" "all" "all")
  = Some [b1; b3].
Proof. vm_compute. reflexivity. Qed.

Example filtered_status :
  getFilteredAppointments JSDate.parse sample_now (view_state "" "completed" "all")
  = Some [b2].
Proof. vm_compute. reflexivity. Qed.

Example month_after_january_31 :
  one_month_after (JSDate.days_from_civil 2026 1 31 * JSDate.msPerDay)
  = JSDate.days_from_civil 2026 3 3 * JSDate.msPerDay.
Proof. reflexivity. Qed.

Example ten_summary :
  renderSummary JSDate.parse sample_now ten_state = Some (Some (Summary 0 3 0 0)).
Proof. vm_compute. reflexivity. Qed.

End FilteredListExamples.


